(** * nicolive-dl: availability resolution and download orchestration

    A shallow embedding of [nicolive_dl/nicolive_dl.py].  The class
    [NicoLiveDL] talks to the outside through a handful of collaborators
    (requests, BeautifulSoup, json, pathlib, the two websocket classes and
    the ffmpeg subprocess).  Their answers are gathered in a record
    [World]; the methods themselves are translated line by line into a
    small monad that threads the operator's standard input, collects the
    calls made to the collaborators, and stops at the first raised
    exception. *)

From Stdlib Require Import String Ascii List ZArith Bool Lia.
Import ListNotations.
Open Scope string_scope.

Set Warnings "-register-all".

(** ** Strings

    A Python [str] is modelled by a Rocq [string].  The only string
    operations of the source are [startswith], slicing off a prefix,
    [lower] and concatenation; the prefix and the two answers ["y"] and
    ["n"] are ASCII, so working on bytes agrees with working on code
    points. *)

Module Str.

Fixpoint startswith (s p : string) {struct p} : bool :=
  match p with
  | EmptyString => true
  | String c p' =>
      match s with
      | EmptyString => false
      | String d s' => Ascii.eqb d c && startswith s' p'
      end
  end.

(** [s[n:]] *)
Fixpoint slice_from (n : nat) (s : string) : string :=
  match n with
  | O => s
  | S n' =>
      match s with
      | EmptyString => EmptyString
      | String _ s' => slice_from n' s'
      end
  end.

Definition lower_char (c : ascii) : ascii :=
  let n := nat_of_ascii c in
  if (65 <=? n)%nat && (n <=? 90)%nat then ascii_of_nat (n + 32) else c.

Fixpoint lower (s : string) : string :=
  match s with
  | EmptyString => EmptyString
  | String c s' => String (lower_char c) (lower s')
  end.

(** The characters of a string, as Python iterates over it. *)
Fixpoint chars (s : string) : list string :=
  match s with
  | EmptyString => []
  | String c s' => String c EmptyString :: chars s'
  end.

Definition esc : string := String (ascii_of_nat 27) EmptyString.

End Str.

(** ** Decoded JSON

    What [json.loads] returns: [None], [bool], [int], [str], [list],
    [dict].  A [dict] is kept as the list of its items in insertion order
    (its keys are distinct, the lookup takes the first match).  Numbers
    are the integers; the source never computes with them. *)

Inductive json : Type :=
| JNull
| JBool (b : bool)
| JNum (z : Z)
| JStr (s : string)
| JArr (l : list json)
| JObj (kv : list (string * json)).

(** ** Exceptions

    [SelectException] and [LiveUnavailableException] are the two classes
    of [exceptions.py] raised here; the others are Python's own or come
    out of a collaborator ([Other] keeps the class name). *)

Inductive exn : Type :=
| SelectException (msg : string)
| LiveUnavailableException (msg : string)
| KeyError (key : string)
| TypeError
| IndexError
| EOFError
| Other (cls : string).

Definition res (A : Type) : Type := (exn + A)%type.

Module Py.

Fixpoint assoc (k : string) (kv : list (string * json)) : option json :=
  match kv with
  | [] => None
  | (k', v) :: kv' => if String.eqb k' k then Some v else assoc k kv'
  end.

(** [obj[key]] with a string key. *)
Definition getitem (obj : json) (key : string) : res json :=
  match obj with
  | JObj kv =>
      match assoc key kv with
      | Some v => inr v
      | None => inl (KeyError key)
      end
  | _ => inl TypeError
  end.

(** [x == True], [x == False]: a bool compares equal to itself and to
    the integers 1 and 0. *)
Definition eq_bool (x : json) (b : bool) : bool :=
  match x with
  | JBool b' => Bool.eqb b' b
  | JNum z => Z.eqb z (if b then 1 else 0)
  | _ => false
  end.

(** [x == 'literal'] *)
Definition eq_str (x : json) (s : string) : bool :=
  match x with
  | JStr s' => String.eqb s' s
  | _ => false
  end.

(** Truth value, as [all] and [any] test it. *)
Definition truthy (x : json) : bool :=
  match x with
  | JNull => false
  | JBool b => b
  | JNum z => negb (Z.eqb z 0)
  | JStr s => negb (String.eqb s "")
  | JArr l => match l with [] => false | _ => true end
  | JObj kv => match kv with [] => false | _ => true end
  end.

(** The elements a [for] or [filter] goes through. *)
Definition iter (x : json) : res (list json) :=
  match x with
  | JArr l => inr l
  | JObj kv => inr (map (fun p => JStr (fst p)) kv)
  | JStr s => inr (map JStr (Str.chars s))
  | _ => inl TypeError
  end.

Definition all (l : list json) : bool := forallb truthy l.
Definition any (l : list json) : bool := existsb truthy l.

End Py.

(** ** The collaborators *)

(** A [bs4.Tag], as far as the source looks at it: its attributes. *)
Record Tag : Type := mkTag { attrs : list (string * string) }.

Record World : Type := mkWorld {
  (** [self.ses.get(url)], [res.raise_for_status()], [res.content] *)
  http_get : string -> res string;
  (** [BeautifulSoup(content, "html.parser").select_one("#embedded-data")] *)
  select_one : string -> option Tag;
  (** [tag.get_attribute_list(key)]: the values of the attribute, as a
      list.  What the list is for an attribute the tag does not have is
      the library's business: BeautifulSoup answers [[None]] up to 4.12
      and the empty list from 4.13 on. *)
  get_attribute_list : Tag -> string -> list (option string);
  (** [urllib.parse.unquote] on a [str] *)
  unquote : string -> string;
  (** [json.loads] *)
  json_loads : string -> res json;
  (** [str(x)] of a decoded value that is not itself a [str] *)
  py_repr : json -> string;
  (** [sanitize_filename.sanitize] *)
  sanitize : json -> res string;
  (** [output.format(title=..., lvid=...)] *)
  str_format : string -> string -> string -> res string;
  (** [Path.exists], [Path.parent], [Path.stem], [parent / name] *)
  path_exists : string -> bool;
  path_parent : string -> string;
  path_stem : string -> string;
  path_join : string -> string -> string;
  (** [Path.mkdir(parents=True, exist_ok=True)] *)
  mkdir : string -> res unit;
  (** [await nlws.wait_for_room()], [await nlws.wait_for_stream()],
      [await nlws.close()] of [NicoLiveWS] *)
  wait_for_room : res json;
  wait_for_stream : res string;
  ws_close : res unit;
  (** [await asyncio.create_subprocess_exec(prog, *args)] and
      [await proc.communicate()]; the integer is the exit status the
      process ended with *)
  create_subprocess_exec : string -> list string -> res unit;
  communicate : res Z
}.

(** ** Calls observed during a run *)

Inductive event : Type :=
| EGet (url : string)
| EPrint (msg : string)
| EInput (prompt : string) (answer : option string)
| ENicoLiveWS (url : json)
| EConnectTask
| EWaitForRoom
| ENicoLiveCommentWS (room : json) (path : string)
| ECommentConnectTask
| EWaitForStream
| EMkdir (path : string)
| ESubprocessExec (prog : string) (args : list string)
| ECommunicate
| EClose.

(** ** The monad: standard input in, result, rest of the input and the
    calls made out. *)

Definition M (A : Type) : Type :=
  list string -> res A * list string * list event.

Definition ret {A} (a : A) : M A := fun i => (inr a, i, []).

Definition raise {A} (e : exn) : M A := fun i => (inl e, i, []).

Definition bind {A B} (c : M A) (k : A -> M B) : M B :=
  fun i =>
    match c i with
    | (inl e, i', t) => (inl e, i', t)
    | (inr a, i', t) =>
        match k a i' with
        | (r, i'', t') => (r, i'', (t ++ t')%list)
        end
    end.

Definition lift {A} (r : res A) : M A := fun i => (r, i, []).

Definition log (e : event) : M unit := fun i => (inr tt, i, [e]).

(** A call to a collaborator: noted, then answered by the world. *)
Definition call {A} (e : event) (r : res A) : M A :=
  fun i => (r, i, [e]).

(** [input(prompt)] *)
Definition input (prompt : string) : M string :=
  fun i =>
    match i with
    | [] => (inl EOFError, [], [EInput prompt None])
    | a :: i' => (inr a, i', [EInput prompt (Some a)])
    end.

Notation "x <- c ;; k" := (bind c (fun x => k))
  (at level 61, c at next level, right associativity).
Notation "c ;;; k" := (bind c (fun _ => k))
  (at level 61, right associativity).

Definition result {A} (o : res A * list string * list event) : res A :=
  fst (fst o).
Definition rest {A} (o : res A * list string * list event) : list string :=
  snd (fst o).
Definition events {A} (o : res A * list string * list event) : list event :=
  snd o.

(** [mapM] in the monad of results, left to right. *)
Fixpoint traverse {A B} (f : A -> res B) (l : list A) : res (list B) :=
  match l with
  | [] => inr []
  | x :: l' =>
      match f x with
      | inl e => inl e
      | inr y =>
          match traverse f l' with
          | inl e => inl e
          | inr ys => inr (y :: ys)
          end
      end
  end.

(** [list(filter(p, l))] for a predicate that may raise. *)
Fixpoint filter_res {A} (p : A -> res bool) (l : list A) : res (list A) :=
  match l with
  | [] => inr []
  | x :: l' =>
      match p x with
      | inl e => inl e
      | inr b =>
          match filter_res p l' with
          | inl e => inl e
          | inr ys => inr (if b then x :: ys else ys)
          end
      end
  end.

(** ** [NicoLiveDL] *)

Definition LIVE_URL_PREFIX : string := "https://live.nicovideo.jp/watch/".

Record NicoLiveInfo : Type := mkNicoLiveInfo {
  lvid : string;
  title : json;
  web_socket_url : json
}.

(** The dict [{'availability': a}] *)
Definition verdict (a : string) : json := JObj [("availability", JStr a)].

Section WithWorld.

Variable w : World.

(** [str(x)], as an f-string or [str.format] inserts a value. *)
Definition str (x : json) : string :=
  match x with
  | JStr s => s
  | _ => py_repr w x
  end.

Definition unavailable_msg (lv reason : json) : string :=
  "Live " ++ str lv ++ " is unavailable. Reason: " ++ str reason.

Definition trial_watch_warning (lv : json) : string :=
  Str.esc ++ "[31m" ++ "[*] Live " ++ str lv
    ++ " has trial watch part. Download may be incomplete on your account"
    ++ Str.esc ++ "[0m".

Definition events_url (lv : json) : string :=
  "https://live2.nicovideo.jp/api/v2/programs/" ++ str lv
    ++ "/operation/events".

(** line 119: the events of type [trialWatchState] *)
Definition trialWatchStates (data : json) : res (list json) :=
  match Py.iter data with
  | inl e => inl e
  | inr l =>
      filter_res
        (fun e =>
           match Py.getitem e "type" with
           | inl x => inl x
           | inr t => inr (Py.eq_str t "trialWatchState")
           end) l
  end.

(** lines 121-126: all / none / some of them enabled *)
Definition availability_of (states : list json) : res json :=
  match traverse (fun x => Py.getitem x "enabled") states with
  | inl e => inl e
  | inr flags =>
      if Py.all flags then inr (JObj [("availability", JStr "all")])
      else if negb (Py.any flags)
           then inr (JObj [("availability", JStr "no")])
           else inr (JObj [("availability", JStr "partial")])
  end.

Definition get_tiralWatch_info (lv : json) : M json :=
  content <- call (EGet (events_url lv)) (http_get w (events_url lv)) ;;
  evs <- lift (json_loads w content) ;;
  data <- lift (Py.getitem evs "data") ;;
  states <- lift (trialWatchStates data) ;;
  lift (availability_of states).

Definition availability_check (decoded_data : json) : M unit :=
  program <- lift (Py.getitem decoded_data "program") ;;
  lv <- lift (Py.getitem program "nicoliveProgramId") ;;
  upw <- lift (Py.getitem decoded_data "userProgramWatch") ;;
  canWatch <- lift (Py.getitem upw "canWatch") ;;
  if Py.eq_bool canWatch false then
    upw' <- lift (Py.getitem decoded_data "userProgramWatch") ;;
    reason <- lift (Py.getitem upw' "rejectedReasons") ;;
    raise (LiveUnavailableException (unavailable_msg lv reason))
  else
    user <- lift (Py.getitem decoded_data "user") ;;
    target <- lift (Py.getitem user "isTrialWatchTarget") ;;
    if Py.eq_bool target true then
      tiralWatchInfo <- get_tiralWatch_info lv ;;
      a <- lift (Py.getitem tiralWatchInfo "availability") ;;
      if Py.eq_str a "no" then
        raise (LiveUnavailableException
                 (unavailable_msg lv (JStr "payment needed")))
      else
        a' <- lift (Py.getitem tiralWatchInfo "availability") ;;
        if Py.eq_str a' "partial"
        then log (EPrint (trial_watch_warning lv))
        else ret tt
    else ret tt.

(** The value of an attribute among those of a tag, if it is there. *)
Fixpoint attr (key : string) (l : list (string * string)) : option string :=
  match l with
  | [] => None
  | (k, v) :: l' => if String.eqb k key then Some v else attr key l'
  end.

(** [l[0]] *)
Definition item0 {A} (l : list A) : res A :=
  match l with
  | [] => inl IndexError
  | x :: _ => inr x
  end.

(** [json.loads(unquote(embedded_data))]; [unquote(None)] is a
    [TypeError]. *)
Definition loads_unquote (embedded_data : option string) : res json :=
  match embedded_data with
  | None => inl TypeError
  | Some s => json_loads w (unquote w s)
  end.

Definition get_info (lv : string) : M NicoLiveInfo :=
  content <- call (EGet (LIVE_URL_PREFIX ++ lv))
                  (http_get w (LIVE_URL_PREFIX ++ lv)) ;;
  match select_one w content with
  | None => raise (SelectException "Not Found #embedded-data")
  | Some embedded_tag =>
      embedded_data <-
        lift (item0 (get_attribute_list w embedded_tag "data-props")) ;;
      decoded_data <- lift (loads_unquote embedded_data) ;;
      availability_check decoded_data ;;;
      site <- lift (Py.getitem decoded_data "site") ;;
      relive <- lift (Py.getitem site "relive") ;;
      url <- lift (Py.getitem relive "webSocketUrl") ;;
      program <- lift (Py.getitem decoded_data "program") ;;
      ttl <- lift (Py.getitem program "title") ;;
      ret (mkNicoLiveInfo lv ttl url)
  end.

Definition overwrite_prompt (output_path : string) : string :=
  "Can you overwrite " ++ output_path ++ "? [y/n]".

(** lines 56-61, the [while True] loop around [input]: it consumes the
    operator's lines one by one until one of them is a yes or a no; at the
    end of the input [input] raises [EOFError].  The result is [true]
    for [break] and [false] for [return]. *)
Fixpoint ask_overwrite (output_path : string) (i : list string)
  : res bool * list string * list event :=
  match i with
  | [] => (inl EOFError, [], [EInput (overwrite_prompt output_path) None])
  | ans :: i' =>
      let e := EInput (overwrite_prompt output_path) (Some ans) in
      if String.eqb (Str.lower ans) "y" then (inr true, i', [e])
      else if String.eqb (Str.lower ans) "n" then (inr false, i', [e])
      else
        match ask_overwrite output_path i' with
        | (r, i'', t) => (r, i'', e :: t)
        end
  end.

(** line 49-50 *)
Definition strip_prefix (lv : string) : string :=
  if Str.startswith lv LIVE_URL_PREFIX
  then Str.slice_from (String.length LIVE_URL_PREFIX) lv
  else lv.

Definition ffmpeg_args (stream_uri output_path : string) : list string :=
  ["-y"; "-i"; stream_uri; "-c"; "copy"; output_path].

Definition comment_path (output_path : string) : string :=
  path_join w (path_parent w output_path)
              (path_stem w output_path ++ ".jsonl").

(** lines 62-76: the session, the optional comment capture, the sink. *)
Definition capture (url : json) (output_path : string)
  (save_comments : bool) : M unit :=
  log (ENicoLiveWS url) ;;;
  log EConnectTask ;;;
  (if save_comments then
     let comment_output_path := comment_path output_path in
     room_event <- call EWaitForRoom (wait_for_room w) ;;
     log (ENicoLiveCommentWS room_event comment_output_path) ;;;
     log ECommentConnectTask
   else ret tt) ;;;
  stream_uri <- call EWaitForStream (wait_for_stream w) ;;
  call (EMkdir (path_parent w output_path))
       (mkdir w (path_parent w output_path)) ;;;
  call (ESubprocessExec "ffmpeg" (ffmpeg_args stream_uri output_path))
       (create_subprocess_exec w "ffmpeg"
          (ffmpeg_args stream_uri output_path)) ;;;
  _ <- call ECommunicate (communicate w) ;;
  call EClose (ws_close w).

(** lines 49-61, then the rest unless the operator said no. *)
Definition _download (lv output : string) (save_comments : bool) : M unit :=
  let lv := strip_prefix lv in
  info <- get_info lv ;;
  ttl <- lift (sanitize w (title info)) ;;
  output_path <- lift (str_format w output ttl (lvid info)) ;;
  proceed <- (if path_exists w output_path
              then ask_overwrite output_path
              else ret true) ;;
  if proceed
  then capture (web_socket_url info) output_path save_comments
  else ret tt.

Definition download (lv output : string) (save_comments : bool) : M unit :=
  _download lv output save_comments.

End WithWorld.

Definition default_output : string := "{title}-{lvid}.ts".

(** ** Reading the outcome of a run *)

(** [d[k1][k2]] *)
Definition getitem2 (d : json) (k1 k2 : string) : res json :=
  match Py.getitem d k1 with
  | inl e => inl e
  | inr x => Py.getitem x k2
  end.

(** The tri-state access level of the specification.  The source keeps no
    such value: [availability_check] returns silently (full access),
    returns after printing the trial-watch warning (partial access), or
    raises [LiveUnavailableException] (no access). *)
Inductive AccessLevel : Type := Full | Partial | NoAccess.

Definition is_print (e : event) : bool :=
  match e with EPrint _ => true | _ => false end.

Definition is_get (e : event) : bool :=
  match e with EGet _ => true | _ => false end.

Definition access_level (o : res unit * list string * list event)
  : option AccessLevel :=
  match result o with
  | inr _ => Some (if existsb is_print (events o) then Partial else Full)
  | inl (LiveUnavailableException _) => Some NoAccess
  | inl _ => None
  end.

(** The metadata names the broadcast, lets the account watch, and flags
    the account as a trial-watch target. *)
Definition trial_target (d lv : json) : Prop :=
  getitem2 d "program" "nicoliveProgramId" = inr lv
  /\ (exists cw, getitem2 d "userProgramWatch" "canWatch" = inr cw
                 /\ Py.eq_bool cw false = false)
  /\ (exists tg, getitem2 d "user" "isTrialWatchTarget" = inr tg
                 /\ Py.eq_bool tg true = true).

(** The schedule endpoint answers for [lv] with a document whose
    [trialWatchState] events are [states], their [enabled] fields being
    the booleans [flags]. *)
Definition schedule (w : World) (lv : json) (states : list json)
  (flags : list bool) : Prop :=
  (exists content evs data,
      http_get w (events_url w lv) = inr content
      /\ json_loads w content = inr evs
      /\ Py.getitem evs "data" = inr data
      /\ trialWatchStates data = inr states)
  /\ Forall2 (fun e b => Py.getitem e "enabled" = inr (JBool b)) states flags.

(** ** Concrete worlds, for the examples *)

Module Sample.

Definition page_url : string := "https://live.nicovideo.jp/watch/lv123456789".

Definition schedule_url : string :=
  "https://live2.nicovideo.jp/api/v2/programs/lv123456789/operation/events".

Definition metadata (canWatch target : bool) : json :=
  JObj [ ("program", JObj [ ("nicoliveProgramId", JStr "lv123456789");
                            ("title", JStr "Title") ]);
         ("userProgramWatch",
           JObj [ ("canWatch", JBool canWatch);
                  ("rejectedReasons", JArr [JStr "notLogin"]) ]);
         ("user", JObj [ ("isTrialWatchTarget", JBool target) ]);
         ("site", JObj [ ("relive",
                           JObj [ ("webSocketUrl", JStr "wss://a.live2/ws") ]) ])
       ].

Definition trial_event (enabled : bool) : json :=
  JObj [ ("elapsedMillisecond", JNum 6108);
         ("type", JStr "trialWatchState");
         ("commentMode", JStr "transparent");
         ("enabled", JBool enabled) ].

Definition other_event : json :=
  JObj [ ("elapsedMillisecond", JNum 10); ("type", JStr "enquete") ].

Definition schedule_doc (flags : list bool) : json :=
  JObj [ ("data", JArr (other_event :: map trial_event flags)) ].

Definition embedded : Tag := mkTag [ ("id", "embedded-data"); ("data-props", "%7B...%7D") ].

(** A world serving one broadcast: [page] is what the page selects to,
    [props] what its metadata decodes to, [flags] the schedule, [present]
    the files already there, [spawned] and [exited] what becomes of the
    sink. *)
Definition world (page : option Tag) (props : res json) (flags : list bool)
  (present : string -> bool) (spawned : res unit) (exited : res Z) : World :=
  {| http_get := fun url =>
       if String.eqb url page_url then inr "<html>"
       else if String.eqb url schedule_url then inr "{events}"
       else inl (Other "HTTPError");
     select_one := fun _ => page;
     get_attribute_list := fun tag key =>
       match attr key (attrs tag) with
       | Some v => [Some v]
       | None => []
       end;
     unquote := fun s => s;
     json_loads := fun s =>
       if String.eqb s "{events}" then inr (schedule_doc flags) else props;
     py_repr := fun _ => "<repr>";
     sanitize := fun t => match t with JStr s => inr s | _ => inl TypeError end;
     str_format := fun _ t l => inr (t ++ "-" ++ l ++ ".ts");
     path_exists := present;
     path_parent := fun _ => ".";
     path_stem := fun p => substring 0 (String.length p - 3) p;
     path_join := fun _ name => name;
     mkdir := fun _ => inr tt;
     wait_for_room := inr (JStr "room");
     wait_for_stream := inr "https://example/stream/master.m3u8";
     ws_close := inr tt;
     create_subprocess_exec := fun _ _ => spawned;
     communicate := exited |}.

Definition nothing_present : string -> bool := fun _ => false.

(** The usual case: page and metadata fine, the account a member. *)
Definition member : World :=
  world (Some embedded) (inr (metadata true false)) []
        nothing_present (inr tt) (inr 0%Z).

Definition trial (flags : list bool) : World :=
  world (Some embedded) (inr (metadata true true)) flags
        nothing_present (inr tt) (inr 0%Z).

(** The element without its [data-props] attribute. *)
Definition bare_tag : Tag := mkTag [ ("id", "embedded-data") ].

Definition no_data_props : World :=
  world (Some bare_tag) (inr (metadata true false)) []
        nothing_present (inr tt) (inr 0%Z).

Definition bad_json : World :=
  world (Some embedded) (inl (Other "JSONDecodeError")) []
        nothing_present (inr tt) (inr 0%Z).

Definition empty_doc : World :=
  world (Some embedded) (inr (JObj [])) []
        nothing_present (inr tt) (inr 0%Z).

Definition no_element : World :=
  world None (inr (metadata true false)) []
        nothing_present (inr tt) (inr 0%Z).

Definition sink_exits (rc : Z) : World :=
  world (Some embedded) (inr (metadata true false)) []
        nothing_present (inr tt) (inr rc).

Definition no_ffmpeg : World :=
  world (Some embedded) (inr (metadata true false)) []
        nothing_present (inl (Other "FileNotFoundError")) (inr 0%Z).

Definition sink_interrupted : World :=
  world (Some embedded) (inr (metadata true false)) []
        nothing_present (inr tt) (inl (Other "CancelledError")).

Definition comment_log_present : World :=
  world (Some embedded) (inr (metadata true false)) []
        (fun p => String.eqb p "Title-lv123456789.jsonl")
        (inr tt) (inr 0%Z).

Definition video_present : World :=
  world (Some embedded) (inr (metadata true false)) []
        (fun p => String.eqb p "Title-lv123456789.ts")
        (inr tt) (inr 0%Z).

End Sample.

(** ** Vocabulary of the orchestration properties *)

(** How a writer treats a file that is already there. *)
Inductive write_mode : Type := Overwrite | Append.

(** Modelled from the spec: what [NicoLiveCommentWS] does to its
    destination.  The class is in [nicolive_ws.py], which is not among the
    sources at hand; the specification has the comment capture "append one
    serialized record" per event to an "append-only log", so an existing
    log is added to and nothing of it is overwritten. *)
Definition comment_log_mode : write_mode := Append.

(** The files an observed call hands to a writer, and how that writer
    treats them: the output file of the ffmpeg command line (its last
    argument), overwritten under [-y], and the log of the comment
    capture. *)
Definition writes (e : event) : list (string * write_mode) :=
  match e with
  | ESubprocessExec _ args => [(last args "", Overwrite)]
  | ENicoLiveCommentWS _ path => [(path, comment_log_mode)]
  | _ => []
  end.

(** The operator was asked about [path] and said yes. *)
Definition confirmed (path : string) (t : list event) : Prop :=
  exists ans, In (EInput (overwrite_prompt path) (Some ans)) t
              /\ Str.lower ans = "y".

Definition is_comment_start (e : event) : bool :=
  match e with ENicoLiveCommentWS _ _ => true | _ => false end.

Definition is_sink_launch (e : event) : bool :=
  match e with ESubprocessExec _ _ => true | _ => false end.

Definition is_wait_for_room (e : event) : bool :=
  match e with EWaitForRoom => true | _ => false end.

Definition is_wait_for_stream (e : event) : bool :=
  match e with EWaitForStream => true | _ => false end.

(** Events of the part of a run before the session is opened. *)
Definition is_front (e : event) : bool :=
  match e with
  | EGet _ | EPrint _ | EInput _ _ => true
  | _ => false
  end.

(** Every [target] in [t] comes after some [need]; [seen] tells whether a
    [need] has already gone by. *)
Fixpoint guarded (need target : event -> bool) (seen : bool)
  (t : list event) : bool :=
  match t with
  | [] => true
  | e :: t' =>
      (if target e then seen else true)
      && guarded need target (seen || need e) t'
  end.


(** ** The claims that fail, as they are worded *)

(** The page's metadata element is missing. *)
Definition block_absent (w : World) (lv : string) : Prop :=
  exists content,
    http_get w (LIVE_URL_PREFIX ++ lv) = inr content
    /\ select_one w content = None.

(** Lines 85-86 on a tag: the first item of its [data-props] list,
    unquoted and parsed. *)
Definition payload_of (w : World) (tag : Tag) : res json :=
  match item0 (get_attribute_list w tag "data-props") with
  | inl e => inl e
  | inr embedded_data => loads_unquote w embedded_data
  end.

(** The element is there and its [data-props] decodes to [d]. *)
Definition block_decodes (w : World) (lv : string) (d : json) : Prop :=
  exists content tag,
    http_get w (LIVE_URL_PREFIX ++ lv) = inr content
    /\ select_one w content = Some tag
    /\ payload_of w tag = inr d.

(** The element is there and its [data-props] cannot be taken or does
    not decode. *)
Definition block_malformed (w : World) (lv : string) : Prop :=
  exists content tag e,
    http_get w (LIVE_URL_PREFIX ++ lv) = inr content
    /\ select_one w content = Some tag
    /\ payload_of w tag = inl e.

Definition NotFound_when_absent_or_malformed : Prop :=
  forall w lv i,
    block_absent w lv \/ block_malformed w lv ->
    exists msg, result (get_info w lv i) = inl (SelectException msg).

Definition sink_failure_surfaces : Prop :=
  forall w lv output sc i rc,
    In ECommunicate (events (_download w lv output sc i)) ->
    communicate w = inr rc -> rc <> 0%Z ->
    exists e, result (_download w lv output sc i) = inl e.

Definition closed_whatever_the_sink_does : Prop :=
  forall w lv output sc i pre prog args post,
    events (_download w lv output sc i)
    = (pre ++ ESubprocessExec prog args :: post)%list ->
    In EClose post.

(** How a run that has launched the sink ends. *)
Definition result_after_launch (w : World) (prog : string)
  (args : list string) : res unit :=
  match create_subprocess_exec w prog args with
  | inl e => inl e
  | inr _ =>
      match communicate w with
      | inl e => inl e
      | inr _ => ws_close w
      end
  end.

(** What follows the launch of the sink in a run. *)
Definition after_launch (w : World) (prog : string) (args : list string)
  : list event :=
  match create_subprocess_exec w prog args with
  | inl _ => []
  | inr _ =>
      ECommunicate ::
        match communicate w with
        | inl _ => []
        | inr _ => [EClose]
        end
  end.

(** ** Vocabulary of the further properties *)

(** The test of line 119 on an event that has a [type]. *)
Definition is_trial_event (e : json) : bool :=
  match Py.getitem e "type" with
  | inr t => Py.eq_str t "trialWatchState"
  | inl _ => false
  end.

Definition has_key (key : string) (e : json) : Prop :=
  exists v, Py.getitem e key = inr v.

Definition is_input (e : event) : bool :=
  match e with EInput _ _ => true | _ => false end.

Definition is_session (e : event) : bool :=
  match e with ENicoLiveWS _ => true | _ => false end.

(** A line the prompt loop does not take for an answer. *)
Definition undecided (ans : string) : bool :=
  negb (String.eqb (Str.lower ans) "y") && negb (String.eqb (Str.lower ans) "n").

(** ** More concrete worlds *)

Module Variant.

(** [w] with another [json.loads]. *)
Definition with_json_loads (w : World) (f : string -> res json) : World :=
  {| http_get := http_get w;
     select_one := select_one w;
     get_attribute_list := get_attribute_list w;
     unquote := unquote w;
     json_loads := f;
     py_repr := py_repr w;
     sanitize := sanitize w;
     str_format := str_format w;
     path_exists := path_exists w;
     path_parent := path_parent w;
     path_stem := path_stem w;
     path_join := path_join w;
     mkdir := mkdir w;
     wait_for_room := wait_for_room w;
     wait_for_stream := wait_for_stream w;
     ws_close := ws_close w;
     create_subprocess_exec := create_subprocess_exec w;
     communicate := communicate w |}.

(** [w] with other answers of the session and of [mkdir]. *)
Definition with_session (w : World) (room : res json) (stream : res string)
  (made : res unit) : World :=
  {| http_get := http_get w;
     select_one := select_one w;
     get_attribute_list := get_attribute_list w;
     unquote := unquote w;
     json_loads := json_loads w;
     py_repr := py_repr w;
     sanitize := sanitize w;
     str_format := str_format w;
     path_exists := path_exists w;
     path_parent := path_parent w;
     path_stem := path_stem w;
     path_join := path_join w;
     mkdir := fun _ => made;
     wait_for_room := room;
     wait_for_stream := stream;
     ws_close := ws_close w;
     create_subprocess_exec := create_subprocess_exec w;
     communicate := communicate w |}.

(** [w] with the [get_attribute_list] of BeautifulSoup up to 4.12: the
    value, or [None], always in a list of one. *)
Definition with_old_attribute_list (w : World) : World :=
  {| http_get := http_get w;
     select_one := select_one w;
     get_attribute_list := fun tag key => [attr key (attrs tag)];
     unquote := unquote w;
     json_loads := json_loads w;
     py_repr := py_repr w;
     sanitize := sanitize w;
     str_format := str_format w;
     path_exists := path_exists w;
     path_parent := path_parent w;
     path_stem := path_stem w;
     path_join := path_join w;
     mkdir := mkdir w;
     wait_for_room := wait_for_room w;
     wait_for_stream := wait_for_stream w;
     ws_close := ws_close w;
     create_subprocess_exec := create_subprocess_exec w;
     communicate := communicate w |}.

(** The schedule endpoint answers with a document without [data]. *)
Definition schedule_without_data : World :=
  with_json_loads (Sample.trial [])
    (fun s => if String.eqb s "{events}" then inr (JObj [])
              else inr (Sample.metadata true true)).

End Variant.

(** The prompts of the loop for the lines [answers]. *)
Definition prompts (path : string) (answers : list string) : list event :=
  map (fun a => EInput (overwrite_prompt path) (Some a)) answers.

(** What comes after the wait for the stream address. *)
Definition is_sink_side (e : event) : bool :=
  match e with
  | EMkdir _ | ESubprocessExec _ _ | ECommunicate | EClose => true
  | _ => false
  end.

Definition is_mkdir (e : event) : bool :=
  match e with EMkdir _ => true | _ => false end.

Definition is_comment_side (e : event) : bool :=
  match e with
  | EWaitForRoom | ENicoLiveCommentWS _ _ | ECommentConnectTask => true
  | _ => false
  end.

(** ** [login]

    [LoginError] is the third class of [exceptions.py]; [login] posts
    through the session and reads the one-time password from standard
    input, so it has its own calls and its own error type, the exceptions
    of the rest being carried along by [Raised]. *)

Module Login.

Inductive error : Type :=
| LoginError (msg : string)
| Raised (e : exn).

Inductive call : Type :=
| Post (url : string) (data : list (string * string))
| Input (prompt : string) (answer : option string).

Definition outcome (A : Type) : Type :=
  ((error + A) * list string * list call)%type.

Definition login_url : string :=
  "https://account.nicovideo.jp/login/redirector".

Definition account_url : string := "https://account.nicovideo.jp/my/account".

Definition payload (username password : string) : list (string * string) :=
  [("mail_tel", username); ("password", password)].

Definition payload2 (otp : string) : list (string * string) :=
  [("otp", otp); ("loginBtn", "Login"); ("is_mfa_trusted_device", "true");
   ("device_name", "nicolivedl")].

Section WithSession.

(** [self.ses.post(url, data=payload)]: the [url] of the response, that
    is where the request ended after its redirects, or the exception of
    the request. *)
Variable post : string -> list (string * string) -> res string.

(** lines 42-43 *)
Definition check (url : string) (i : list string) (t : list call)
  : outcome unit :=
  if String.eqb url account_url then (inr tt, i, t)
  else (inl (LoginError "Failed to Login"), i, t).

Definition login (username password : string) (otp_required : bool)
  (i : list string) : outcome unit :=
  let first := Post login_url (payload username password) in
  match post login_url (payload username password) with
  | inl e => (inl (Raised e), i, [first])
  | inr url =>
      if otp_required then
        match i with
        | [] => (inl (Raised EOFError), [], [first; Input "OTP: " None])
        | otp :: i' =>
            let asked := Input "OTP: " (Some otp) in
            let second := Post url (payload2 otp) in
            match post url (payload2 otp) with
            | inl e => (inl (Raised e), i', [first; asked; second])
            | inr url' => check url' i' [first; asked; second]
            end
        end
      else check url i [first]
  end.

End WithSession.

Definition is_post (c : call) : bool :=
  match c with Post _ _ => true | Input _ _ => false end.

End Login.

(** ** [__main__.py] *)

Module Cli.

(** What [parse_args] returns: an option that was not given is [None]. *)
Record Args : Type := mkArgs {
  username : option string;
  password : option string;
  live_id : option string;
  otp_required : bool;
  save_comments : bool
}.

Inductive call : Type :=
| Input (prompt : string) (answer : option string)
| Getpass (prompt : string)
| OfLogin (c : Login.call)
| OfDownload (e : event).

Definition outcome (A : Type) : Type :=
  ((Login.error + A) * list string * list call)%type.

Definition C (A : Type) : Type := list string -> outcome A.

Definition andthen {A B} (c : C A) (k : A -> C B) : C B :=
  fun i =>
    match c i with
    | (inl e, i', t) => (inl e, i', t)
    | (inr a, i', t) =>
        match k a i' with
        | (r, i'', t') => (r, i'', (t ++ t')%list)
        end
    end.

(** [input(prompt)] *)
Definition input (prompt : string) : C string :=
  fun i =>
    match i with
    | [] => (inl (Login.Raised EOFError), [], [Input prompt None])
    | a :: i' => (inr a, i', [Input prompt (Some a)])
    end.

(** The truth value of an argument: [None] and the empty string are
    false. *)
Definition given (x : option string) : option string :=
  match x with
  | Some s => if String.eqb s "" then None else Some s
  | None => None
  end.

(** [x or c] *)
Definition or_else (x : option string) (c : C string) : C string :=
  match given x with
  | Some s => fun i => (inr s, i, [])
  | None => c
  end.

Definition of_login {A} (o : Login.outcome A) : outcome A :=
  match o with
  | (r, i, t) => (r, i, map OfLogin t)
  end.

Definition of_download {A} (o : res A * list string * list event)
  : outcome A :=
  match o with
  | (inl e, i, t) => (inl (Login.Raised e), i, map OfDownload t)
  | (inr a, i, t) => (inr a, i, map OfDownload t)
  end.

Section WithWorld.

Variable w : World.
Variable post : string -> list (string * string) -> res string.
(** [getpass.getpass(prompt)], which reads the terminal *)
Variable getpass : string -> res string.

Definition ask_password (prompt : string) : C string :=
  fun i =>
    match getpass prompt with
    | inl e => (inl (Login.Raised e), i, [Getpass prompt])
    | inr s => (inr s, i, [Getpass prompt])
    end.

Definition main (args : Args) : C unit :=
  andthen (or_else (username args) (input "Account: ")) (fun user =>
  andthen (or_else (password args) (ask_password "Password: ")) (fun pass =>
  andthen (or_else (live_id args) (input "Live Id: ")) (fun live =>
  andthen (fun i => of_login
                      (Login.login post user pass (otp_required args) i))
          (fun _ =>
  fun i => of_download
             (download w live default_output (save_comments args) i))))).

End WithWorld.



(** A terminal that hands out the same password every time. *)
Definition typed (pw : string) : string -> res string := fun _ => inr pw.

(** A session that accepts the credentials [user]/[pass] and, when asked
    for it at the page [mfa], the one-time password [otp]. *)
Definition session (user pass mfa otp : string)
  : string -> list (string * string) -> res string :=
  fun url data =>
    if String.eqb url Login.login_url then
      match data with
      | [(_, u); (_, p)] =>
          if String.eqb u user && String.eqb p pass
          then inr (if String.eqb mfa "" then Login.account_url else mfa)
          else inr "https://account.nicovideo.jp/login"
      | _ => inr "https://account.nicovideo.jp/login"
      end
    else if String.eqb url mfa then
      match data with
      | (_, o) :: _ =>
          if String.eqb o otp then inr Login.account_url else inr mfa
      | [] => inr mfa
      end
    else inl (Other "ConnectionError").

End Cli.

(** * Properties *)

(** ** Helpers on decoded values *)

Lemma getitem2_inv (d : json) (k1 k2 : string) (v : json) :
  getitem2 d k1 k2 = inr v ->
  exists x, Py.getitem d k1 = inr x /\ Py.getitem x k2 = inr v.
Proof.
  unfold getitem2. destruct (Py.getitem d k1) as [e | x]; [discriminate |].
  intros H. exists x. split; [reflexivity | exact H].
Qed.

Lemma traverse_enabled (states : list json) (flags : list bool) :
  Forall2 (fun e b => Py.getitem e "enabled" = inr (JBool b)) states flags ->
  traverse (fun x => Py.getitem x "enabled") states = inr (map JBool flags).
Proof.
  induction 1 as [| e b states flags He _ IH]; simpl.
  - reflexivity.
  - rewrite He, IH. reflexivity.
Qed.

Lemma all_flags (flags : list bool) :
  Py.all (map JBool flags) = forallb (fun b => b) flags.
Proof.
  unfold Py.all. induction flags as [| b flags IH]; simpl; [| rewrite IH]; reflexivity.
Qed.

Lemma any_flags (flags : list bool) :
  Py.any (map JBool flags) = existsb (fun b => b) flags.
Proof.
  unfold Py.any. induction flags as [| b flags IH]; simpl; [| rewrite IH]; reflexivity.
Qed.

Lemma none_enabled_not_all (flags : list bool) :
  flags <> [] -> existsb (fun b => b) flags = false ->
  forallb (fun b => b) flags = false.
Proof.
  destruct flags as [| b flags]; [congruence |].
  simpl. destruct b; [discriminate | reflexivity].
Qed.

Lemma availability_of_flags (states : list json) (flags : list bool) :
  Forall2 (fun e b => Py.getitem e "enabled" = inr (JBool b)) states flags ->
  availability_of states =
    inr (verdict (if forallb (fun b => b) flags then "all"
                  else if negb (existsb (fun b => b) flags) then "no"
                       else "partial")).
Proof.
  intros H. unfold availability_of.
  rewrite (traverse_enabled _ _ H), all_flags, any_flags.
  destruct (forallb _ flags); [reflexivity |].
  destruct (existsb _ flags); reflexivity.
Qed.

(** What [availability_check] does for a trial-watch target, by the
    schedule's flags. *)
Lemma availability_check_trial (w : World) (d lv : json)
  (states : list json) (flags : list bool) (i : list string) :
  trial_target d lv -> schedule w lv states flags ->
  availability_check w d i =
    if forallb (fun b => b) flags
    then (inr tt, i, [EGet (events_url w lv)])
    else if negb (existsb (fun b => b) flags)
         then (inl (LiveUnavailableException
                      (unavailable_msg w lv (JStr "payment needed"))),
               i, [EGet (events_url w lv)])
         else (inr tt, i,
               [EGet (events_url w lv); EPrint (trial_watch_warning w lv)]).
Proof.
  intros (Hlv & (cw & Hcw & Hcw') & (tg & Htg & Htg'))
         ((content & evs & data & Hget & Hload & Hdata & Hst) & Hfl).
  apply getitem2_inv in Hlv as (program & Hp & Hid).
  apply getitem2_inv in Hcw as (upw & Hu & Hc).
  apply getitem2_inv in Htg as (user & Hus & Ht).
  pose proof (availability_of_flags _ _ Hfl) as Hav.
  unfold availability_check, get_tiralWatch_info, bind, lift, call, raise, ret, log.
  rewrite Hp, Hid, Hu, Hc, Hcw', Hus, Ht, Htg', Hget, Hload, Hdata, Hst, Hav.
  destruct (forallb _ flags); [reflexivity |].
  destruct (existsb _ flags); reflexivity.
Qed.

(** ** Availability resolution *)

(** C1.  For a trial-watch target whose schedule holds the
    [trialWatchState] events [states] with [enabled] flags [flags]:
    every flag set (the empty list included) gives ['all'], full access,
    the check returning silently after the one schedule fetch; a non-empty
    list with no flag set gives ['no'], and the check raises
    [LiveUnavailableException] with reason 'payment needed'; a mix gives
    ['partial'], and the check prints the warning and returns. *)
Theorem trial_watch_levels (w : World) (d lv : json)
  (states : list json) (flags : list bool) (i : list string) :
  trial_target d lv -> schedule w lv states flags ->
  let o := availability_check w d i in
  (forallb (fun b => b) flags = true ->
     availability_of states = inr (verdict "all")
     /\ o = (inr tt, i, [EGet (events_url w lv)])
     /\ access_level o = Some Full)
  /\ (flags <> [] -> existsb (fun b => b) flags = false ->
     availability_of states = inr (verdict "no")
     /\ o = (inl (LiveUnavailableException
                    (unavailable_msg w lv (JStr "payment needed"))),
             i, [EGet (events_url w lv)])
     /\ access_level o = Some NoAccess)
  /\ (existsb (fun b => b) flags = true ->
      forallb (fun b => b) flags = false ->
     availability_of states = inr (verdict "partial")
     /\ o = (inr tt, i,
             [EGet (events_url w lv); EPrint (trial_watch_warning w lv)])
     /\ access_level o = Some Partial)
  /\ (flags = [] ->
     availability_of states = inr (verdict "all")
     /\ access_level o = Some Full).
Proof.
  intros Ht Hs o.
  assert (Ho : o = availability_check w d i) by reflexivity.
  rewrite (availability_check_trial w d lv states flags i Ht Hs) in Ho.
  destruct Hs as (_ & Hfl).
  pose proof (availability_of_flags _ _ Hfl) as Hav.
  repeat split.
  - rewrite Hav, H. reflexivity.
  - rewrite Ho, H. reflexivity.
  - rewrite Ho, H. reflexivity.
  - rewrite Hav, (none_enabled_not_all _ H H0), H0. reflexivity.
  - rewrite Ho, (none_enabled_not_all _ H H0), H0. reflexivity.
  - rewrite Ho, (none_enabled_not_all _ H H0), H0. reflexivity.
  - rewrite Hav, H, H0. reflexivity.
  - rewrite Ho, H, H0. reflexivity.
  - rewrite Ho, H, H0. reflexivity.
  - rewrite Hav, H. reflexivity.
  - rewrite Ho, H. reflexivity.
Qed.

Ltac sample_target :=
  split; [reflexivity | split; exists (JBool true); split; reflexivity].

Ltac sample_schedule :=
  split;
  [ eexists _, _, _; split; [reflexivity |];
    split; [reflexivity |]; split; reflexivity
  | repeat constructor ].

(** The mixed schedule of the specification's scenario C, and the three
    other shapes, run through the theorem. *)
Lemma trial_watch_levels_witness :
  access_level (availability_check (Sample.trial [true; false])
                  (Sample.metadata true true) []) = Some Partial
  /\ access_level (availability_check (Sample.trial [true; true])
                  (Sample.metadata true true) []) = Some Full
  /\ access_level (availability_check (Sample.trial [false; false])
                  (Sample.metadata true true) []) = Some NoAccess
  /\ access_level (availability_check (Sample.trial [])
                  (Sample.metadata true true) []) = Some Full.
Proof.
  split; [| split; [| split]].
  - destruct (trial_watch_levels (Sample.trial [true; false])
                (Sample.metadata true true) (JStr "lv123456789")
                (map Sample.trial_event [true; false]) [true; false] [])
      as (_ & _ & H & _); [sample_target | sample_schedule |].
    apply H; reflexivity.
  - destruct (trial_watch_levels (Sample.trial [true; true])
                (Sample.metadata true true) (JStr "lv123456789")
                (map Sample.trial_event [true; true]) [true; true] [])
      as (H & _); [sample_target | sample_schedule |].
    apply H; reflexivity.
  - destruct (trial_watch_levels (Sample.trial [false; false])
                (Sample.metadata true true) (JStr "lv123456789")
                (map Sample.trial_event [false; false]) [false; false] [])
      as (_ & H & _); [sample_target | sample_schedule |].
    apply H; [discriminate | reflexivity].
  - destruct (trial_watch_levels (Sample.trial [])
                (Sample.metadata true true) (JStr "lv123456789")
                (map Sample.trial_event []) [] [])
      as (_ & _ & _ & H); [sample_target | sample_schedule |].
    apply H; reflexivity.
Defined.

(** C2.  When the metadata's [canWatch] is false the check raises
    [LiveUnavailableException] whose message carries the platform's
    [rejectedReasons]; it makes no call at all, so the schedule endpoint is
    not fetched, whatever the trial-watch flag and whatever the world
    would have answered. *)
Theorem cannot_watch_short_circuits (w : World) (d lv reason : json)
  (i : list string) :
  getitem2 d "program" "nicoliveProgramId" = inr lv ->
  getitem2 d "userProgramWatch" "canWatch" = inr (JBool false) ->
  getitem2 d "userProgramWatch" "rejectedReasons" = inr reason ->
  availability_check w d i =
    (inl (LiveUnavailableException
            ("Live " ++ str w lv ++ " is unavailable. Reason: "
                     ++ str w reason)), i, [])
  /\ existsb is_get (events (availability_check w d i)) = false.
Proof.
  intros Hlv Hcw Hr.
  apply getitem2_inv in Hlv as (program & Hp & Hid).
  apply getitem2_inv in Hcw as (upw & Hu & Hc).
  apply getitem2_inv in Hr as (upw' & Hu' & Hrr).
  assert (E : availability_check w d i =
    (inl (LiveUnavailableException (unavailable_msg w lv reason)), i, [])).
  { unfold availability_check, bind, lift, raise.
    rewrite Hu in Hu'. injection Hu' as <-.
    rewrite Hp, Hid, Hu, Hc. simpl. rewrite Hrr. reflexivity. }
  rewrite E. split; reflexivity.
Qed.

Lemma cannot_watch_short_circuits_witness :
  availability_check (Sample.trial [true; true]) (Sample.metadata false true) []
  = (inl (LiveUnavailableException
            "Live lv123456789 is unavailable. Reason: <repr>"), [], [])
  /\ existsb is_get
       (events (availability_check (Sample.trial [true; true])
                  (Sample.metadata false true) [])) = false.
Proof.
  apply (cannot_watch_short_circuits (Sample.trial [true; true])
           (Sample.metadata false true) (JStr "lv123456789")
           (JArr [JStr "notLogin"]) []); reflexivity.
Defined.

(** C6.  With [canWatch] true and [isTrialWatchTarget] false the check
    returns silently: full access, no warning, and not a single call, so
    none to the schedule endpoint, whatever that endpoint holds. *)
Theorem member_is_full (w : World) (d lv : json) (i : list string) :
  getitem2 d "program" "nicoliveProgramId" = inr lv ->
  getitem2 d "userProgramWatch" "canWatch" = inr (JBool true) ->
  getitem2 d "user" "isTrialWatchTarget" = inr (JBool false) ->
  availability_check w d i = (inr tt, i, [])
  /\ access_level (availability_check w d i) = Some Full
  /\ existsb is_get (events (availability_check w d i)) = false.
Proof.
  intros Hlv Hcw Htg.
  apply getitem2_inv in Hlv as (program & Hp & Hid).
  apply getitem2_inv in Hcw as (upw & Hu & Hc).
  apply getitem2_inv in Htg as (user & Hus & Ht).
  assert (E : availability_check w d i = (inr tt, i, [])).
  { unfold availability_check, bind, lift, ret.
    rewrite Hp, Hid, Hu, Hc. simpl. rewrite Hus, Ht. reflexivity. }
  rewrite E. repeat split.
Qed.

(** A member's metadata against a schedule whose events are all disabled:
    the schedule is never looked at. *)
Lemma member_is_full_witness :
  availability_check (Sample.world (Some Sample.embedded)
                        (inr (Sample.metadata true false)) [false; false]
                        Sample.nothing_present (inr tt) (inr 0%Z))
                     (Sample.metadata true false) ["y"]
  = (inr tt, ["y"], [])
  /\ access_level
       (availability_check (Sample.world (Some Sample.embedded)
                              (inr (Sample.metadata true false)) [false; false]
                              Sample.nothing_present (inr tt) (inr 0%Z))
                           (Sample.metadata true false) ["y"]) = Some Full
  /\ existsb is_get
       (events
          (availability_check (Sample.world (Some Sample.embedded)
                                 (inr (Sample.metadata true false))
                                 [false; false]
                                 Sample.nothing_present (inr tt) (inr 0%Z))
                              (Sample.metadata true false) ["y"])) = false.
Proof.
  apply (member_is_full _ (Sample.metadata true false) (JStr "lv123456789"));
    reflexivity.
Defined.

(** ** Laws of the monad used below *)

Lemma events_bind {A B} (c : M A) (k : A -> M B) (i : list string) :
  events (bind c k i) =
    (events (c i) ++
       match result (c i) with
       | inl _ => []
       | inr a => events (k a (rest (c i)))
       end)%list.
Proof.
  unfold bind, events, result, rest.
  destruct (c i) as [[[e | a] i'] t]; simpl.
  - now rewrite app_nil_r.
  - now destruct (k a i') as [[r i''] t'].
Qed.

Lemma result_bind {A B} (c : M A) (k : A -> M B) (i : list string) :
  result (bind c k i) =
    match result (c i) with
    | inl e => inl e
    | inr a => result (k a (rest (c i)))
    end.
Proof.
  unfold bind, events, result, rest.
  destruct (c i) as [[[e | a] i'] t]; simpl.
  - reflexivity.
  - now destruct (k a i') as [[r i''] t'].
Qed.

Lemma rest_bind {A B} (c : M A) (k : A -> M B) (i : list string) :
  rest (bind c k i) =
    match result (c i) with
    | inl _ => rest (c i)
    | inr a => rest (k a (rest (c i)))
    end.
Proof.
  unfold bind, events, result, rest.
  destruct (c i) as [[[e | a] i'] t]; simpl.
  - reflexivity.
  - now destruct (k a i') as [[r i''] t'].
Qed.

Ltac mstep :=
  rewrite ?result_bind, ?events_bind, ?rest_bind;
  cbn [result rest events call lift ret raise log fst snd].

Ltac mcase :=
  mstep;
  match goal with
  | |- context [match ?x with inl _ => _ | inr _ => _ end] =>
      destruct x eqn:?
  end.

(** The prompt loop is its own body followed by itself: one [input], a
    [break] on yes, a [return] on no, another round otherwise. *)
Lemma ask_overwrite_loop (path : string) (i : list string) :
  ask_overwrite path i
  = bind (input (overwrite_prompt path))
      (fun ans =>
         if String.eqb (Str.lower ans) "y" then ret true
         else if String.eqb (Str.lower ans) "n" then ret false
              else ask_overwrite path) i.
Proof.
  destruct i as [| ans i]; cbn [ask_overwrite bind input]; [reflexivity |].
  destruct (String.eqb (Str.lower ans) "y"); [reflexivity |].
  destruct (String.eqb (Str.lower ans) "n"); [reflexivity |].
  now destruct (ask_overwrite path i) as [[r i'] t].
Qed.

(** ** Normalising the id *)

Lemma startswith_app (p s : string) : Str.startswith (p ++ s) p = true.
Proof.
  induction p as [| c p IH]; simpl; [reflexivity |].
  now rewrite Ascii.eqb_refl, IH.
Qed.

Lemma slice_from_app (p s : string) :
  Str.slice_from (String.length p) (p ++ s) = s.
Proof.
  induction p as [| c p IH]; simpl; [now destruct s | exact IH].
Qed.

Lemma strip_prefix_url (s : string) : strip_prefix (LIVE_URL_PREFIX ++ s) = s.
Proof.
  unfold strip_prefix.
  now rewrite startswith_app, slice_from_app.
Qed.

Lemma get_info_first_call (w : World) (lv : string) (i : list string) :
  exists t, events (get_info w lv i) = EGet (LIVE_URL_PREFIX ++ lv) :: t.
Proof.
  unfold get_info. rewrite events_bind. simpl. eauto.
Qed.

Lemma get_info_lvid (w : World) (lv : string) (i : list string)
  (info : NicoLiveInfo) :
  result (get_info w lv i) = inr info -> lvid info = lv.
Proof.
  unfold get_info. mcase; [discriminate |].
  destruct (select_one w _); [| discriminate].
  repeat (mcase; [discriminate |]).
  mstep. intros H. injection H as <-. reflexivity.
Qed.

Lemma download_first_call (w : World) (lv output : string) (sc : bool)
  (i : list string) :
  exists t, events (_download w lv output sc i)
            = EGet (LIVE_URL_PREFIX ++ strip_prefix lv) :: t.
Proof.
  unfold _download. rewrite events_bind.
  destruct (get_info_first_call w (strip_prefix lv) i) as (t & ->).
  simpl. eauto.
Qed.

(** C9.  An id given as the watch URL is cut down to the bare id before
    anything else happens: the first call of the run is the fetch of the
    page of the bare id, the run is the run on the bare id's own
    normal form, and the info it resolves carries the bare id. *)
Theorem url_is_normalized (w : World) (s output : string) (sc : bool)
  (i : list string) :
  strip_prefix (LIVE_URL_PREFIX ++ s) = s
  /\ (exists t, events (_download w (LIVE_URL_PREFIX ++ s) output sc i)
                = EGet (LIVE_URL_PREFIX ++ s) :: t)
  /\ (forall info, result (get_info w (strip_prefix (LIVE_URL_PREFIX ++ s)) i)
                   = inr info -> lvid info = s).
Proof.
  split; [apply strip_prefix_url | split].
  - destruct (download_first_call w (LIVE_URL_PREFIX ++ s) output sc i)
      as (t & Ht).
    rewrite strip_prefix_url in Ht. eauto.
  - intros info. rewrite strip_prefix_url. apply get_info_lvid.
Qed.

(** The specification's scenario A, on a member's world. *)
Lemma url_is_normalized_witness :
  strip_prefix "https://live.nicovideo.jp/watch/lv123456789" = "lv123456789"
  /\ (exists t,
        events (_download Sample.member
                  "https://live.nicovideo.jp/watch/lv123456789"
                  default_output false [])
        = EGet "https://live.nicovideo.jp/watch/lv123456789" :: t)
  /\ lvid (mkNicoLiveInfo "lv123456789" (JStr "Title")
             (JStr "wss://a.live2/ws")) = "lv123456789".
Proof.
  destruct (url_is_normalized Sample.member "lv123456789" default_output
              false []) as (H1 & H2 & H3).
  split; [exact H1 | split; [exact H2 |]].
  apply H3. reflexivity.
Defined.

(** C10.  An id that does not start with the exact prefix is left as it
    is and goes verbatim into the page fetch, which is the first call of
    the run. *)
Theorem other_ids_pass_through (w : World) (s output : string) (sc : bool)
  (i : list string) :
  Str.startswith s LIVE_URL_PREFIX = false ->
  strip_prefix s = s
  /\ (exists t, events (_download w s output sc i)
                = EGet (LIVE_URL_PREFIX ++ s) :: t).
Proof.
  intros H.
  assert (E : strip_prefix s = s) by (unfold strip_prefix; now rewrite H).
  split; [exact E |].
  destruct (download_first_call w s output sc i) as (t & Ht).
  rewrite E in Ht. eauto.
Qed.

(** An [http] scheme, a host alone, and a URL that does start with the
    prefix but drags a query string along: the first two are not touched,
    the third keeps its query string. *)
Lemma other_ids_pass_through_witness :
  strip_prefix "http://live.nicovideo.jp/watch/lv123456789"
  = "http://live.nicovideo.jp/watch/lv123456789"
  /\ (exists t,
        events (_download Sample.member
                  "http://live.nicovideo.jp/watch/lv123456789"
                  default_output false [])
        = EGet "https://live.nicovideo.jp/watch/http://live.nicovideo.jp/watch/lv123456789"
            :: t).
Proof.
  apply (other_ids_pass_through Sample.member
           "http://live.nicovideo.jp/watch/lv123456789" default_output false []).
  reflexivity.
Defined.

Example host_alone_untouched :
  strip_prefix "https://live.nicovideo.jp/lv123456789"
  = "https://live.nicovideo.jp/lv123456789".
Proof. reflexivity. Qed.

Example query_string_kept :
  strip_prefix "https://live.nicovideo.jp/watch/lv123456789?ref=top"
  = "lv123456789?ref=top".
Proof. reflexivity. Qed.

(** ** Runs of the orchestration *)

Ltac mcrunch :=
  repeat first
    [ progress (mstep; cbn [app])
    | match goal with
      | |- context [match ?x with inl _ => _ | inr _ => _ end] =>
          destruct x eqn:?
      | |- context [match ?x with Some _ => _ | None => _ end] =>
          destruct x eqn:?
      | |- context [if ?b then _ else _] => destruct b eqn:?
      end ].

Lemma availability_check_front (w : World) (d : json) (i : list string) :
  forallb is_front (events (availability_check w d i)) = true.
Proof.
  unfold availability_check, get_tiralWatch_info.
  mcrunch; reflexivity.
Qed.

Lemma get_info_front (w : World) (lv : string) (i : list string) :
  forallb is_front (events (get_info w lv i)) = true.
Proof.
  unfold get_info. mcase; [reflexivity |].
  destruct (select_one w _); [| reflexivity].
  repeat (mcase; [reflexivity |]).
  mstep. cbn [app forallb is_front andb].
  rewrite forallb_app, availability_check_front.
  destruct (result (availability_check w _ i)); [reflexivity |].
  mcrunch; reflexivity.
Qed.

Lemma ask_overwrite_front (p : string) (i : list string) :
  forallb is_front (events (ask_overwrite p i)) = true.
Proof.
  induction i as [| ans i IH]; cbn [ask_overwrite]; [reflexivity |].
  destruct (String.eqb (Str.lower ans) "y"); [reflexivity |].
  destruct (String.eqb (Str.lower ans) "n"); [reflexivity |].
  destruct (ask_overwrite p i) as [[r i'] t]. exact IH.
Qed.

Lemma ask_overwrite_yes (p : string) (i i' : list string) (t : list event) :
  ask_overwrite p i = (inr true, i', t) -> confirmed p t.
Proof.
  revert i' t. induction i as [| ans i IH]; intros i' t; cbn [ask_overwrite].
  - discriminate.
  - destruct (String.eqb (Str.lower ans) "y") eqn:Hy.
    + intros H. injection H as <- <-. exists ans. split.
      * left. reflexivity.
      * now apply String.eqb_eq.
    + destruct (String.eqb (Str.lower ans) "n").
      * discriminate.
      * destruct (ask_overwrite p i) as [[r i''] t'].
        intros H. injection H as -> <- <-.
        destruct (IH _ _ eq_refl) as (a & Ha & Hl).
        exists a. split; [right; exact Ha | exact Hl].
Qed.

Lemma guarded_mono (need target : event -> bool) (t : list event) (b : bool) :
  guarded need target b t = true -> guarded need target true t = true.
Proof.
  revert b. induction t as [| e t IH]; intros b; cbn [guarded]; [reflexivity |].
  intros H. apply andb_true_iff in H as [H1 H2].
  apply andb_true_iff. split.
  - now destruct (target e).
  - cbn [orb]. destruct b; cbn [orb] in H2; [exact H2 |].
    destruct (need e); [exact H2 | eauto].
Qed.

Lemma guarded_split (need target : event -> bool) (t : list event) :
  forall seen pre e post,
    guarded need target seen t = true ->
    t = (pre ++ e :: post)%list -> target e = true ->
    seen = true \/ exists e', In e' pre /\ need e' = true.
Proof.
  induction t as [| x t IH]; intros seen pre e post G E T.
  - destruct pre; discriminate.
  - cbn [guarded] in G. apply andb_true_iff in G as [G1 G2].
    destruct pre as [| y pre]; cbn [app] in E; injection E as -> ->.
    + rewrite T in G1. now left.
    + destruct (IH _ _ _ _ G2 eq_refl T) as [S | (e' & I & N)].
      * apply orb_true_iff in S as [S | S]; [now left |].
        right. exists y. split; [now left | exact S].
      * right. exists e'. split; [now right | exact N].
Qed.

Lemma guarded_front (need target : event -> bool) (t1 t2 : list event) :
  forallb (fun e => negb (target e)) t1 = true ->
  guarded need target false t2 = true ->
  guarded need target false (t1 ++ t2) = true.
Proof.
  intros F G.
  assert (H : forall b, guarded need target b t2 = true ->
                        guarded need target b (t1 ++ t2) = true).
  { clear G. induction t1 as [| e t1 IH]; intros b G; cbn [app guarded].
    - exact G.
    - cbn [forallb] in F. apply andb_true_iff in F as [F1 F2].
      apply negb_true_iff in F1. rewrite F1. cbn [andb].
      apply (IH F2). destruct b; cbn [orb]; [exact G |].
      destruct (need e); [| exact G].
      exact (guarded_mono _ _ _ _ G). }
  now apply H.
Qed.

(** *** The capture part, case by case on what the world answers *)

Ltac capture_cases w sc :=
  unfold capture;
  destruct sc;
  destruct (wait_for_room w) eqn:?;
  destruct (wait_for_stream w) eqn:?;
  mstep; cbn [app];
  repeat first
    [ progress (mstep; cbn [app])
    | match goal with
      | |- context [match ?x with inl _ => _ | inr _ => _ end] =>
          destruct x eqn:?
      end ].

Lemma capture_room_first (w : World) (url : json) (out : string) (sc : bool)
  (i : list string) :
  guarded is_wait_for_room is_comment_start false
    (events (capture w url out sc i)) = true.
Proof. capture_cases w sc; reflexivity. Qed.

Lemma capture_stream_first (w : World) (url : json) (out : string) (sc : bool)
  (i : list string) :
  guarded is_wait_for_stream is_sink_launch false
    (events (capture w url out sc i)) = true.
Proof. capture_cases w sc; reflexivity. Qed.

Ltac in_cases H :=
  cbn [In] in H;
  repeat match type of H with
         | _ \/ _ => destruct H as [H | H]
         end;
  try discriminate H; try contradiction.

Lemma capture_comment_start (w : World) (url : json) (out : string)
  (sc : bool) (i : list string) (room : json) (p : string) :
  In (ENicoLiveCommentWS room p) (events (capture w url out sc i)) ->
  sc = true /\ wait_for_room w = inr room /\ p = comment_path w out.
Proof.
  capture_cases w sc; intros H; in_cases H;
    injection H as <- <-; repeat split; reflexivity.
Qed.

Lemma capture_sink_launch (w : World) (url : json) (out : string)
  (sc : bool) (i : list string) (prog : string) (args : list string) :
  In (ESubprocessExec prog args) (events (capture w url out sc i)) ->
  prog = "ffmpeg"
  /\ exists uri, wait_for_stream w = inr uri /\ args = ffmpeg_args uri out.
Proof.
  capture_cases w sc; intros H; in_cases H;
    injection H as <- <-; (split; [reflexivity | eauto]).
Qed.

Lemma capture_sink_exit (w : World) (url : json) (out : string)
  (sc : bool) (i : list string) (rc : Z) :
  In ECommunicate (events (capture w url out sc i)) ->
  communicate w = inr rc ->
  result (capture w url out sc i) = ws_close w
  /\ exists t, events (capture w url out sc i)
               = (t ++ [ECommunicate; EClose])%list.
Proof.
  intros H C. revert H. capture_cases w sc; intros H; in_cases H;
    try congruence.
  all: (split; [reflexivity |]).
  all: first [ now eexists [_; _; _; _; _; _; _; _]
             | now eexists [_; _; _; _; _] ].
Qed.

Lemma capture_not_front (w : World) (url : json) (out : string) (sc : bool)
  (i : list string) :
  forallb (fun e => negb (is_front e)) (events (capture w url out sc i)) = true.
Proof. capture_cases w sc; reflexivity. Qed.

(** *** A run is a front part, then the capture part or nothing *)

Lemma download_inv (w : World) (lv output : string) (sc : bool)
  (i : list string) :
  exists front,
    forallb is_front front = true
    /\ ((events (_download w lv output sc i) = front)
        \/ (exists info out i',
              result (get_info w (strip_prefix lv) i) = inr info
              /\ (exists ttl, sanitize w (title info) = inr ttl
                              /\ str_format w output ttl (lvid info) = inr out)
              /\ (path_exists w out = true -> confirmed out front)
              /\ events (_download w lv output sc i)
                 = (front ++ events (capture w (web_socket_url info) out sc i'))%list
              /\ result (_download w lv output sc i)
                 = result (capture w (web_socket_url info) out sc i'))).
Proof.
  unfold _download.
  pose proof (get_info_front w (strip_prefix lv) i) as F1.
  mstep.
  destruct (get_info w (strip_prefix lv) i) as [[[e | info] i1] t1] eqn:G;
    cbn [events result rest fst snd] in *.
  - exists t1. split; [exact F1 | left; now rewrite app_nil_r].
  - destruct (sanitize w (title info)) as [e | ttl] eqn:S; mstep; cbn [app].
    { exists t1. split; [exact F1 | left; now rewrite app_nil_r]. }
    destruct (str_format w output ttl (lvid info)) as [e | out] eqn:O;
      mstep; cbn [app].
    { exists t1. split; [exact F1 | left; now rewrite app_nil_r]. }
    destruct (path_exists w out) eqn:P; mstep; cbn [app].
    + pose proof (ask_overwrite_front out i1) as F2.
      destruct (ask_overwrite out i1) as [[[e | [|]] i2] t2] eqn:A;
        cbn [events result rest fst snd] in *.
      * exists (t1 ++ t2)%list. split.
        { now rewrite forallb_app, F1, F2. }
        left. now rewrite app_nil_r.
      * exists (t1 ++ t2)%list. split.
        { now rewrite forallb_app, F1, F2. }
        right. exists info, out, i2. repeat split.
        -- eauto.
        -- intros _. destruct (ask_overwrite_yes _ _ _ _ A) as (a & Ha & Hl).
           exists a. split; [apply in_or_app; now right | exact Hl].
        -- now rewrite app_assoc.
      * exists (t1 ++ t2)%list. split.
        { now rewrite forallb_app, F1, F2. }
        left. now rewrite app_nil_r.
    + exists t1. split; [exact F1 |].
      right. exists info, out, i1. repeat split.
      * eauto.
      * congruence.
Qed.

(** ** Info resolution *)

Lemma get_info_absent (w : World) (lv : string) (i : list string) :
  block_absent w lv ->
  get_info w lv i
  = (inl (SelectException "Not Found #embedded-data"), i,
     [EGet (LIVE_URL_PREFIX ++ lv)]).
Proof.
  intros (content & Hget & Hsel).
  unfold get_info, bind, call. rewrite Hget, Hsel. reflexivity.
Qed.

Lemma get_info_undecodable (w : World) (lv : string) (i : list string)
  (content : string) (tag : Tag) (e : exn) :
  http_get w (LIVE_URL_PREFIX ++ lv) = inr content ->
  select_one w content = Some tag ->
  payload_of w tag = inl e ->
  result (get_info w lv i) = inl e.
Proof.
  intros Hget Hsel Hdec. unfold payload_of in Hdec.
  unfold get_info. mstep. rewrite Hget, Hsel. mstep.
  destruct (item0 _) as [e' | embedded_data].
  - now injection Hdec as ->.
  - mstep. now rewrite Hdec.
Qed.

Lemma get_info_unavailable (w : World) (lv : string) (i : list string)
  (d : json) (e : exn) :
  block_decodes w lv d ->
  result (availability_check w d i) = inl e ->
  result (get_info w lv i) = inl e.
Proof.
  intros (content & tag & Hget & Hsel & Hdec) Hchk.
  unfold payload_of in Hdec.
  unfold get_info. mstep. rewrite Hget, Hsel. mstep.
  destruct (item0 _) as [e' | embedded_data]; [discriminate |].
  mstep. rewrite Hdec. mstep. rewrite Hchk. reflexivity.
Qed.

Lemma get_info_returns (w : World) (lv : string) (i : list string)
  (info : NicoLiveInfo) :
  result (get_info w lv i) = inr info ->
  exists d,
    block_decodes w lv d
    /\ result (availability_check w d i) = inr tt
    /\ lvid info = lv
    /\ getitem2 d "program" "title" = inr (title info)
    /\ exists site,
         Py.getitem d "site" = inr site
         /\ getitem2 site "relive" "webSocketUrl" = inr (web_socket_url info).
Proof.
  unfold get_info. mstep.
  destruct (http_get w _) as [e | content] eqn:Hget; [discriminate |].
  destruct (select_one w content) as [tag |] eqn:Hsel; [| discriminate].
  mstep.
  destruct (item0 _) as [e | embedded_data] eqn:Hitem; [discriminate |].
  mstep.
  destruct (loads_unquote w _) as [e | d] eqn:Hdec; [discriminate |].
  mstep.
  destruct (result (availability_check w d i)) as [e | []] eqn:Hchk;
    [discriminate |].
  mstep. destruct (Py.getitem d "site") as [e | site] eqn:Hs; [discriminate |].
  mstep. destruct (Py.getitem site "relive") as [e | relive] eqn:Hr;
    [discriminate |].
  mstep. destruct (Py.getitem relive "webSocketUrl") as [e | url] eqn:Hu;
    [discriminate |].
  mstep. destruct (Py.getitem d "program") as [e | program] eqn:Hp;
    [discriminate |].
  mstep. destruct (Py.getitem program "title") as [e | ttl] eqn:Ht;
    [discriminate |].
  mstep. intros H. injection H as <-. exists d.
  split.
  { exists content, tag. split; [exact Hget | split; [exact Hsel |]].
    unfold payload_of. now rewrite Hitem. }
  split; [exact Hchk |]. split; [reflexivity |].
  split; [unfold getitem2; now rewrite Hp |].
  exists site. split; [exact Hs |]. unfold getitem2. now rewrite Hr.
Qed.

(** C7, as amended.  Info resolution raises [SelectException] ("Not
    Found") when the metadata element is absent; when the element is there
    but its payload cannot be taken from it or does not decode, the
    exception of that step comes out instead (the [IndexError] of [[0]],
    the [TypeError] of [unquote], the decoder's error); an exception of
    the availability check comes out unchanged; and a record is returned
    only after the check has passed, made of the id asked for, the
    metadata's title and its websocket address. *)
Theorem get_info_contract (w : World) (lv : string) (i : list string) :
  (block_absent w lv ->
     get_info w lv i
     = (inl (SelectException "Not Found #embedded-data"), i,
        [EGet (LIVE_URL_PREFIX ++ lv)]))
  /\ (forall content tag e,
        http_get w (LIVE_URL_PREFIX ++ lv) = inr content ->
        select_one w content = Some tag ->
        (item0 (get_attribute_list w tag "data-props") = inl e
         \/ exists embedded_data,
              item0 (get_attribute_list w tag "data-props")
              = inr embedded_data
              /\ loads_unquote w embedded_data = inl e) ->
        result (get_info w lv i) = inl e)
  /\ (forall d e,
        block_decodes w lv d ->
        result (availability_check w d i) = inl e ->
        result (get_info w lv i) = inl e)
  /\ (forall info,
        result (get_info w lv i) = inr info ->
        exists d,
          block_decodes w lv d
          /\ result (availability_check w d i) = inr tt
          /\ lvid info = lv
          /\ getitem2 d "program" "title" = inr (title info)
          /\ exists site,
               Py.getitem d "site" = inr site
               /\ getitem2 site "relive" "webSocketUrl"
                  = inr (web_socket_url info)).
Proof.
  split; [apply get_info_absent |].
  split.
  { intros content tag e Hget Hsel H.
    apply (get_info_undecodable w lv i content tag e Hget Hsel).
    unfold payload_of. destruct H as [-> | (ed & -> & H)]; [reflexivity |].
    exact H. }
  split; [intros d e; apply get_info_unavailable | apply get_info_returns].
Qed.

Lemma get_info_contract_witness :
  get_info Sample.no_element "lv123456789" []
  = (inl (SelectException "Not Found #embedded-data"), [],
     [EGet Sample.page_url])
  /\ result (get_info Sample.bad_json "lv123456789" [])
     = inl (Other "JSONDecodeError")
  /\ result (get_info Sample.no_data_props "lv123456789" [])
     = inl IndexError
  /\ result (get_info (Sample.trial [false]) "lv123456789" [])
     = inl (LiveUnavailableException
              "Live lv123456789 is unavailable. Reason: payment needed")
  /\ exists d,
       block_decodes Sample.member "lv123456789" d
       /\ result (availability_check Sample.member d []) = inr tt.
Proof.
  split; [| split; [| split; [| split]]].
  - destruct (get_info_contract Sample.no_element "lv123456789" [])
      as (H & _).
    apply H. exists "<html>". split; reflexivity.
  - destruct (get_info_contract Sample.bad_json "lv123456789" [])
      as (_ & H & _).
    apply (H "<html>" Sample.embedded); [reflexivity | reflexivity |].
    right. exists (Some "%7B...%7D"). split; reflexivity.
  - destruct (get_info_contract Sample.no_data_props "lv123456789" [])
      as (_ & H & _).
    apply (H "<html>" Sample.bare_tag); [reflexivity | reflexivity |].
    left. reflexivity.
  - destruct (get_info_contract (Sample.trial [false]) "lv123456789" [])
      as (_ & _ & H & _).
    apply (H (Sample.metadata true true)).
    + exists "<html>", Sample.embedded.
      split; [reflexivity | split; reflexivity].
    + reflexivity.
  - destruct (get_info_contract Sample.member "lv123456789" [])
      as (_ & _ & _ & H).
    destruct (H (mkNicoLiveInfo "lv123456789" (JStr "Title")
                   (JStr "wss://a.live2/ws")) eq_refl)
      as (d & Hd & Hc & _).
    exists d. split; assumption.
Defined.

(** C7, as worded, fails: a page whose element carries a payload that is
    not JSON is malformed, and what comes out is the error of
    [json.loads], not [SelectException]. *)
Lemma malformed_block_is_not_NotFound : ~ NotFound_when_absent_or_malformed.
Proof.
  intros H.
  destruct (H Sample.bad_json "lv123456789" []) as (msg & Hmsg).
  - right. exists "<html>", Sample.embedded, (Other "JSONDecodeError").
    split; [reflexivity | split; reflexivity].
  - discriminate Hmsg.
Qed.

(** More malformed blocks: the same payload looked at directly, an
    element without its [data-props] attribute, under either behaviour of
    [get_attribute_list], and a JSON document without the expected
    fields. *)
Example undecodable_payload :
  result (get_info Sample.bad_json "lv123456789" [])
  = inl (Other "JSONDecodeError").
Proof. reflexivity. Qed.

Example attribute_missing :
  result (get_info Sample.no_data_props "lv123456789" []) = inl IndexError
  /\ result (get_info (Variant.with_old_attribute_list Sample.no_data_props)
               "lv123456789" []) = inl TypeError.
Proof. split; reflexivity. Qed.

Example document_without_fields :
  result (get_info Sample.empty_doc "lv123456789" [])
  = inl (KeyError "program").
Proof. reflexivity. Qed.

(** ** The orchestration *)

Lemma front_in (front : list event) (e : event) :
  forallb is_front front = true -> In e front -> is_front e = true.
Proof.
  intros F I. rewrite forallb_forall in F. now apply F.
Qed.

Lemma front_has_no (target : event -> bool) (front : list event) :
  (forall e, target e = true -> is_front e = false) ->
  forallb is_front front = true ->
  forallb (fun e => negb (target e)) front = true.
Proof.
  intros T F. rewrite forallb_forall in *. intros e I.
  destruct (target e) eqn:E; [| reflexivity].
  specialize (F e I). rewrite (T e E) in F. discriminate.
Qed.

Lemma split_after_front (front cap pre post : list event) (e : event) :
  forallb is_front front = true -> is_front e = false ->
  (front ++ cap = pre ++ e :: post)%list ->
  exists pre', pre = (front ++ pre')%list /\ cap = (pre' ++ e :: post)%list.
Proof.
  revert pre. induction front as [| x front IH]; intros pre F N E.
  - exists pre. split; [reflexivity | exact E].
  - cbn [forallb] in F. apply andb_true_iff in F as [Fx F].
    destruct pre as [| y pre]; cbn [app] in E; injection E as -> E.
    + congruence.
    + destruct (IH pre F N E) as (pre' & -> & ->).
      exists pre'. split; reflexivity.
Qed.

(** An event of a run that is not of the front part belongs to the
    capture part, which was then reached. *)
Lemma download_reached_capture (w : World) (lv output : string) (sc : bool)
  (i : list string) (e : event) :
  In e (events (_download w lv output sc i)) -> is_front e = false ->
  exists front info out i',
    forallb is_front front = true
    /\ (path_exists w out = true -> confirmed out front)
    /\ events (_download w lv output sc i)
       = (front ++ events (capture w (web_socket_url info) out sc i'))%list
    /\ result (_download w lv output sc i)
       = result (capture w (web_socket_url info) out sc i')
    /\ In e (events (capture w (web_socket_url info) out sc i')).
Proof.
  intros I N.
  destruct (download_inv w lv output sc i)
    as (front & F & [E | (info & out & i' & _ & _ & C & E & R)]).
  - rewrite E in I. rewrite (front_in _ _ F I) in N. discriminate.
  - exists front, info, out, i'. repeat split; try assumption.
    rewrite E in I. apply in_app_or in I as [I | I]; [| exact I].
    rewrite (front_in _ _ F I) in N. discriminate.
Qed.

Lemma download_guarded (need target : event -> bool) (w : World)
  (lv output : string) (sc : bool) (i : list string) :
  (forall e, target e = true -> is_front e = false) ->
  (forall url out i', guarded need target false
                        (events (capture w url out sc i')) = true) ->
  guarded need target false (events (_download w lv output sc i)) = true.
Proof.
  intros T G.
  destruct (download_inv w lv output sc i)
    as (front & F & [E | (info & out & i' & _ & _ & _ & E & _)]);
    rewrite E.
  - rewrite <- (app_nil_r front).
    apply guarded_front; [now apply front_has_no | reflexivity].
  - apply guarded_front; [now apply front_has_no | apply G].
Qed.

Lemma confirmed_app (path : string) (t1 t2 : list event) :
  confirmed path t1 -> confirmed path (t1 ++ t2).
Proof.
  intros (ans & I & L). exists ans. split; [| exact L].
  apply in_or_app. now left.
Qed.

(** C5.  In every run, whatever precedes the start of the comment capture
    contains the wait for the room, which has resolved to the very room
    handed to the capture (and comment capture was requested); whatever
    precedes the launch of the sink contains the wait for the stream
    address, which has resolved to the address on the sink's command
    line. *)
Theorem milestones_come_first (w : World) (lv output : string) (sc : bool)
  (i : list string) (pre post : list event) (e : event) :
  events (_download w lv output sc i) = (pre ++ e :: post)%list ->
  (forall room path,
      e = ENicoLiveCommentWS room path ->
      In EWaitForRoom pre /\ wait_for_room w = inr room /\ sc = true)
  /\ (forall prog args,
      e = ESubprocessExec prog args ->
      In EWaitForStream pre
      /\ exists uri out,
           wait_for_stream w = inr uri /\ args = ffmpeg_args uri out).
Proof.
  intros E.
  assert (I : In e (events (_download w lv output sc i))).
  { rewrite E. apply in_elt. }
  split.
  - intros room path ->.
    destruct (download_reached_capture w lv output sc i _ I eq_refl)
      as (front & info & out & i' & _ & _ & _ & _ & Ic).
    apply capture_comment_start in Ic as (Hsc & Hroom & _).
    split; [| split; assumption].
    assert (G : guarded is_wait_for_room is_comment_start false
                  (events (_download w lv output sc i)) = true).
    { apply download_guarded.
      - intros [] T; try discriminate T; reflexivity.
      - intros. apply capture_room_first. }
    destruct (guarded_split _ _ _ _ _ _ _ G E eq_refl)
      as [S | (e' & Ie & Ne)]; [discriminate |].
    destruct e'; try discriminate Ne. exact Ie.
  - intros prog args ->.
    destruct (download_reached_capture w lv output sc i _ I eq_refl)
      as (front & info & out & i' & _ & _ & _ & _ & Ic).
    apply capture_sink_launch in Ic as (_ & uri & Huri & Hargs).
    split; [| now exists uri, out].
    assert (G : guarded is_wait_for_stream is_sink_launch false
                  (events (_download w lv output sc i)) = true).
    { apply download_guarded.
      - intros [] T; try discriminate T; reflexivity.
      - intros. apply capture_stream_first. }
    destruct (guarded_split _ _ _ _ _ _ _ G E eq_refl)
      as [S | (e' & Ie & Ne)]; [discriminate |].
    destruct e'; try discriminate Ne. exact Ie.
Qed.

(** A member's run with comment capture asked for, cut at the start of the
    comment capture and at the launch of the sink. *)
Lemma milestones_come_first_witness :
  (In EWaitForRoom
      [EGet Sample.page_url; ENicoLiveWS (JStr "wss://a.live2/ws");
       EConnectTask; EWaitForRoom]
   /\ wait_for_room Sample.member = inr (JStr "room") /\ true = true)
  /\ (In EWaitForStream
        [EGet Sample.page_url; ENicoLiveWS (JStr "wss://a.live2/ws");
         EConnectTask; EWaitForRoom;
         ENicoLiveCommentWS (JStr "room") "Title-lv123456789.jsonl";
         ECommentConnectTask; EWaitForStream; EMkdir "."]
      /\ exists uri out,
           wait_for_stream Sample.member = inr uri
           /\ ["-y"; "-i"; "https://example/stream/master.m3u8"; "-c"; "copy";
               "Title-lv123456789.ts"] = ffmpeg_args uri out).
Proof.
  split.
  - destruct (milestones_come_first Sample.member "lv123456789"
                default_output true []
                [EGet Sample.page_url; ENicoLiveWS (JStr "wss://a.live2/ws");
                 EConnectTask; EWaitForRoom]
                [ECommentConnectTask; EWaitForStream; EMkdir ".";
                 ESubprocessExec "ffmpeg"
                   ["-y"; "-i"; "https://example/stream/master.m3u8"; "-c";
                    "copy"; "Title-lv123456789.ts"];
                 ECommunicate; EClose]
                (ENicoLiveCommentWS (JStr "room") "Title-lv123456789.jsonl")
                eq_refl) as (H & _).
    exact (H _ _ eq_refl).
  - destruct (milestones_come_first Sample.member "lv123456789"
                default_output true []
                [EGet Sample.page_url; ENicoLiveWS (JStr "wss://a.live2/ws");
                 EConnectTask; EWaitForRoom;
                 ENicoLiveCommentWS (JStr "room") "Title-lv123456789.jsonl";
                 ECommentConnectTask; EWaitForStream; EMkdir "."]
                [ECommunicate; EClose]
                (ESubprocessExec "ffmpeg"
                   ["-y"; "-i"; "https://example/stream/master.m3u8"; "-c";
                    "copy"; "Title-lv123456789.ts"])
                eq_refl) as (_ & H).
    exact (H _ _ eq_refl).
Defined.

(** C4.  In every run, a file that is already there is handed to a
    writer that overwrites only after the operator has been asked about
    that file and has answered yes.  This covers both destinations of a
    run: the video file, which the sink overwrites ([-y]), and the comment
    log, which the comment capture only appends to. *)
Theorem no_silent_overwrite (w : World) (lv output : string)
  (sc : bool) (i : list string) (pre post : list event) (e : event)
  (path : string) :
  events (_download w lv output sc i) = (pre ++ e :: post)%list ->
  In (path, Overwrite) (writes e) -> path_exists w path = true ->
  confirmed path pre.
Proof.
  intros E D P.
  destruct e; try contradiction D.
  - destruct D as [D | []]. discriminate D.
  - destruct D as [D | []]. injection D as <-.
    assert (I : In (ESubprocessExec prog args)
                   (events (_download w lv output sc i))).
    { rewrite E. apply in_elt. }
    destruct (download_reached_capture w lv output sc i _ I eq_refl)
      as (front & info & out & i' & F & C & E' & _ & Ic).
    apply capture_sink_launch in Ic as (_ & uri & _ & ->).
    cbn [ffmpeg_args last] in *.
    rewrite E' in E.
    destruct (split_after_front _ _ _ _ (ESubprocessExec _ _) F eq_refl E)
      as (pre' & -> & _).
    apply confirmed_app, C, P.
Qed.

(** The video file is there; the operator hesitates, then says yes. *)
Lemma no_silent_overwrite_witness :
  confirmed "Title-lv123456789.ts"
    [EGet Sample.page_url;
     EInput "Can you overwrite Title-lv123456789.ts? [y/n]" (Some "what?");
     EInput "Can you overwrite Title-lv123456789.ts? [y/n]" (Some "Y");
     ENicoLiveWS (JStr "wss://a.live2/ws"); EConnectTask; EWaitForStream;
     EMkdir "."].
Proof.
  apply (no_silent_overwrite Sample.video_present "lv123456789"
           default_output false ["what?"; "Y"]
           _ [ECommunicate; EClose]
           (ESubprocessExec "ffmpeg"
              ["-y"; "-i"; "https://example/stream/master.m3u8"; "-c";
               "copy"; "Title-lv123456789.ts"])).
  - reflexivity.
  - left. reflexivity.
  - reflexivity.
Defined.

(** The comment log is there and comment capture is asked for: the log
    goes to the comment capture, to be appended to, without a prompt. *)
Example existing_comment_log_appended :
  _download Sample.comment_log_present "lv123456789" default_output true []
  = (inr tt, [],
     [EGet Sample.page_url; ENicoLiveWS (JStr "wss://a.live2/ws");
      EConnectTask; EWaitForRoom;
      ENicoLiveCommentWS (JStr "room") "Title-lv123456789.jsonl";
      ECommentConnectTask; EWaitForStream; EMkdir ".";
      ESubprocessExec "ffmpeg"
        ["-y"; "-i"; "https://example/stream/master.m3u8"; "-c"; "copy";
         "Title-lv123456789.ts"];
      ECommunicate; EClose])
  /\ writes (ENicoLiveCommentWS (JStr "room") "Title-lv123456789.jsonl")
     = [("Title-lv123456789.jsonl", Append)].
Proof. split; reflexivity. Qed.

(** C3, as amended.  Once the sink has terminated, with whatever exit
    status, the run closes the session and its result is the result of
    that close: the exit status is not looked at. *)
Theorem sink_exit_status_ignored (w : World) (lv output : string)
  (sc : bool) (i : list string) (rc : Z) :
  In ECommunicate (events (_download w lv output sc i)) ->
  communicate w = inr rc ->
  result (_download w lv output sc i) = ws_close w
  /\ exists pre, events (_download w lv output sc i)
                 = (pre ++ [ECommunicate; EClose])%list.
Proof.
  intros I C.
  destruct (download_reached_capture w lv output sc i _ I eq_refl)
    as (front & info & out & i' & _ & _ & E & R & Ic).
  destruct (capture_sink_exit _ _ _ _ _ _ Ic C) as (Rc & t & Et).
  split; [now rewrite R |].
  exists (front ++ t)%list. now rewrite E, Et, app_assoc.
Qed.

Lemma sink_exit_status_ignored_witness :
  result (_download (Sample.sink_exits 1) "lv123456789" default_output
            false []) = inr tt
  /\ exists pre, events (_download (Sample.sink_exits 1) "lv123456789"
                           default_output false [])
                 = (pre ++ [ECommunicate; EClose])%list.
Proof.
  apply (sink_exit_status_ignored (Sample.sink_exits 1) "lv123456789"
           default_output false [] 1%Z).
  - cbn. tauto.
  - reflexivity.
Defined.

(** C3, as worded, fails: the sink exits with status 1 and the run
    returns as it does on success. *)
Lemma sink_failure_is_swallowed : ~ sink_failure_surfaces.
Proof.
  intros H.
  destruct (H (Sample.sink_exits 1) "lv123456789" default_output false []
              1%Z) as (e & He).
  - cbn. tauto.
  - reflexivity.
  - discriminate.
  - discriminate He.
Qed.

Lemma capture_after_launch (w : World) (url : json) (out : string)
  (sc : bool) (i : list string) (prog : string) (args : list string) :
  In (ESubprocessExec prog args) (events (capture w url out sc i)) ->
  exists pre,
    events (capture w url out sc i)
    = (pre ++ ESubprocessExec prog args :: after_launch w prog args)%list
    /\ ~ In EClose pre
    /\ result (capture w url out sc i) = result_after_launch w prog args.
Proof.
  capture_cases w sc; intros H; in_cases H; injection H as <- <-;
    unfold after_launch, result_after_launch;
    repeat match goal with
           | E : create_subprocess_exec _ _ _ = _ |- _ => rewrite E; clear E
           | E : communicate _ = _ |- _ => rewrite E; clear E
           end.
  all: first
         [ eexists [_; _; _; _; _; _; _];
           split; [reflexivity | split; [| reflexivity]]
         | eexists [_; _; _; _];
           split; [reflexivity | split; [| reflexivity]] ].
  all: intros I; in_cases I.
Qed.

(** C8, as amended.  In a run that launches the sink, the session is
    closed right after the sink has terminated, whatever its exit status;
    when the launch itself or the wait for the sink raises, the exception
    goes to the caller and the session is not closed. *)
Theorem close_follows_sink_exit (w : World) (lv output : string)
  (sc : bool) (i : list string) (prog : string) (args : list string) :
  In (ESubprocessExec prog args) (events (_download w lv output sc i)) ->
  (forall rc,
      create_subprocess_exec w prog args = inr tt ->
      communicate w = inr rc ->
      exists pre,
        events (_download w lv output sc i)
        = (pre ++ [ESubprocessExec prog args; ECommunicate; EClose])%list)
  /\ (forall e,
        create_subprocess_exec w prog args = inl e ->
        result (_download w lv output sc i) = inl e
        /\ ~ In EClose (events (_download w lv output sc i)))
  /\ (forall e,
        create_subprocess_exec w prog args = inr tt ->
        communicate w = inl e ->
        result (_download w lv output sc i) = inl e
        /\ ~ In EClose (events (_download w lv output sc i))).
Proof.
  intros I.
  destruct (download_reached_capture w lv output sc i _ I eq_refl)
    as (front & info & out & i' & F & _ & E & R & Ic).
  destruct (capture_after_launch _ _ _ _ _ _ _ Ic) as (pre & Ec & Nc & Rc).
  rewrite R, Rc, E, Ec. unfold after_launch, result_after_launch.
  assert (NF : ~ In EClose front).
  { intros J. pose proof (front_in _ _ F J) as K. discriminate K. }
  split; [| split].
  - intros rc -> ->. exists (front ++ pre)%list. now rewrite <- app_assoc.
  - intros e ->. split; [reflexivity |].
    intros J. apply in_app_or in J as [J | J]; [now apply NF |].
    apply in_app_or in J as [J | J]; [now apply Nc |]. in_cases J.
  - intros e -> ->. split; [reflexivity |].
    intros J. apply in_app_or in J as [J | J]; [now apply NF |].
    apply in_app_or in J as [J | J]; [now apply Nc |]. in_cases J.
Qed.

Lemma close_follows_sink_exit_witness :
  (exists pre,
      events (_download (Sample.sink_exits 1) "lv123456789" default_output
                false [])
      = (pre ++ [ESubprocessExec "ffmpeg"
                   (ffmpeg_args "https://example/stream/master.m3u8"
                                "Title-lv123456789.ts");
                 ECommunicate; EClose])%list)
  /\ (result (_download Sample.no_ffmpeg "lv123456789" default_output
                false []) = inl (Other "FileNotFoundError")
      /\ ~ In EClose (events (_download Sample.no_ffmpeg "lv123456789"
                                default_output false [])))
  /\ (result (_download Sample.sink_interrupted "lv123456789" default_output
                false []) = inl (Other "CancelledError")
      /\ ~ In EClose (events (_download Sample.sink_interrupted "lv123456789"
                                default_output false []))).
Proof.
  split; [| split].
  - destruct (close_follows_sink_exit (Sample.sink_exits 1) "lv123456789"
                default_output false [] "ffmpeg"
                (ffmpeg_args "https://example/stream/master.m3u8"
                             "Title-lv123456789.ts")) as (H & _).
    + cbn. tauto.
    + apply (H 1%Z); reflexivity.
  - destruct (close_follows_sink_exit Sample.no_ffmpeg "lv123456789"
                default_output false [] "ffmpeg"
                (ffmpeg_args "https://example/stream/master.m3u8"
                             "Title-lv123456789.ts")) as (_ & H & _).
    + cbn. tauto.
    + apply H. reflexivity.
  - destruct (close_follows_sink_exit Sample.sink_interrupted "lv123456789"
                default_output false [] "ffmpeg"
                (ffmpeg_args "https://example/stream/master.m3u8"
                             "Title-lv123456789.ts")) as (_ & _ & H).
    + cbn. tauto.
    + apply H; reflexivity.
Defined.

(** C8, as worded, fails: ffmpeg cannot be started, the launch raises, and
    the run ends there with the session still open. *)
Lemma session_left_open : ~ closed_whatever_the_sink_does.
Proof.
  intros H.
  apply (H Sample.no_ffmpeg "lv123456789" default_output false []
           [EGet Sample.page_url; ENicoLiveWS (JStr "wss://a.live2/ws");
            EConnectTask; EWaitForStream; EMkdir "."]
           "ffmpeg"
           (ffmpeg_args "https://example/stream/master.m3u8"
                        "Title-lv123456789.ts")
           [] eq_refl).
Qed.

(** The same when the wait for the sink is interrupted. *)
Example session_left_open_on_interrupt :
  _download Sample.sink_interrupted "lv123456789" default_output false []
  = (inl (Other "CancelledError"), [],
     [EGet Sample.page_url; ENicoLiveWS (JStr "wss://a.live2/ws");
      EConnectTask; EWaitForStream; EMkdir ".";
      ESubprocessExec "ffmpeg"
        (ffmpeg_args "https://example/stream/master.m3u8"
                     "Title-lv123456789.ts");
      ECommunicate]).
Proof. reflexivity. Qed.

(** * Further properties of the code *)

(** ** The schedule *)

Lemma rest_availability_check (w : World) (d : json) (i : list string) :
  rest (availability_check w d i) = i.
Proof.
  unfold availability_check, get_tiralWatch_info.
  mcrunch; reflexivity.
Qed.

Lemma filter_res_ok (l ys : list json) :
  filter_res
    (fun e => match Py.getitem e "type" with
              | inl x => inl x
              | inr t => inr (Py.eq_str t "trialWatchState")
              end) l = inr ys ->
  ys = filter is_trial_event l /\ Forall (has_key "type") l.
Proof.
  revert ys. induction l as [| x l IH]; intros ys; cbn [filter_res filter].
  - intros H. injection H as <-. now split.
  - unfold is_trial_event at 1.
    destruct (Py.getitem x "type") as [e | t] eqn:Px; [discriminate |].
    destruct (filter_res _ l) as [e | zs]; [discriminate |].
    intros H. injection H as <-.
    destruct (IH zs eq_refl) as (-> & F).
    split; [reflexivity |]. constructor; [now exists t | exact F].
Qed.

Lemma filter_res_typed (l : list json) :
  Forall (has_key "type") l ->
  filter_res
    (fun e => match Py.getitem e "type" with
              | inl x => inl x
              | inr t => inr (Py.eq_str t "trialWatchState")
              end) l = inr (filter is_trial_event l).
Proof.
  induction 1 as [| x l (t & Ht) _ IH]; cbn [filter_res filter];
    [reflexivity |].
  unfold is_trial_event at 1. rewrite Ht, IH. reflexivity.
Qed.

(** X1.  From a list of events that all carry a [type], line 119 keeps
    exactly those of type [trialWatchState], in their order; the others
    are dropped without a look at their other fields.  And whenever the
    line succeeds, that is what it has kept. *)
Theorem trialWatchStates_keeps_trial_events (l : list json) :
  (Forall (has_key "type") l ->
   trialWatchStates (JArr l) = inr (filter is_trial_event l))
  /\ (forall states,
        trialWatchStates (JArr l) = inr states ->
        states = filter is_trial_event l /\ Forall (has_key "type") l).
Proof.
  unfold trialWatchStates. cbn [Py.iter]. split.
  - apply filter_res_typed.
  - intros states. apply filter_res_ok.
Qed.

Lemma trialWatchStates_keeps_trial_events_witness :
  trialWatchStates
    (JArr [Sample.other_event; Sample.trial_event true; Sample.other_event;
           Sample.trial_event false])
  = inr [Sample.trial_event true; Sample.trial_event false].
Proof.
  destruct (trialWatchStates_keeps_trial_events
              [Sample.other_event; Sample.trial_event true;
               Sample.other_event; Sample.trial_event false]) as (H & _).
  apply H. repeat constructor; eexists; reflexivity.
Defined.

(** X2.  The first event without a [type] stops line 119 with the
    [KeyError] (or, for an event that is not an object, the [TypeError])
    of its lookup, whatever comes after it. *)
Theorem event_without_type_raises (l1 l2 : list json) (bad : json) (e : exn) :
  Forall (has_key "type") l1 ->
  Py.getitem bad "type" = inl e ->
  trialWatchStates (JArr (l1 ++ bad :: l2)) = inl e.
Proof.
  intros F B. unfold trialWatchStates. cbn [Py.iter].
  induction F as [| x l (t & Ht) _ IH]; cbn [app filter_res].
  - now rewrite B.
  - now rewrite Ht, IH.
Qed.

Lemma event_without_type_raises_witness :
  trialWatchStates
    (JArr [Sample.trial_event true; JObj [("enabled", JBool true)];
           Sample.trial_event false])
  = inl (KeyError "type")
  /\ trialWatchStates (JArr [JStr "trialWatchState"]) = inl TypeError.
Proof.
  split.
  - apply (event_without_type_raises [Sample.trial_event true]
             [Sample.trial_event false] (JObj [("enabled", JBool true)])).
    + repeat constructor. eexists; reflexivity.
    + reflexivity.
  - apply (event_without_type_raises [] [] (JStr "trialWatchState")).
    + constructor.
    + reflexivity.
Defined.

Lemma traverse_stops {A B} (f : A -> res B) (l1 l2 : list A) (bad : A)
  (e : exn) :
  Forall (fun x => exists y, f x = inr y) l1 -> f bad = inl e ->
  traverse f (l1 ++ bad :: l2) = inl e.
Proof.
  intros F Hb. induction F as [| x l (y & Hy) _ IH]; cbn [app traverse].
  - now rewrite Hb.
  - now rewrite Hy, IH.
Qed.

(** X3.  A [trialWatchState] event without an [enabled] field makes the
    aggregation raise the [KeyError] of that lookup, even when the events
    before it already hold a disabled one: the flags are all read before
    any of them is tested. *)
Theorem state_without_enabled_raises (s1 s2 : list json) (bad : json)
  (e : exn) :
  Forall (has_key "enabled") s1 ->
  Py.getitem bad "enabled" = inl e ->
  availability_of (s1 ++ bad :: s2) = inl e.
Proof.
  intros F B. unfold availability_of.
  now rewrite (traverse_stops _ s1 s2 bad e F B).
Qed.

Lemma state_without_enabled_raises_witness :
  availability_of
    [Sample.trial_event false; JObj [("type", JStr "trialWatchState")];
     Sample.trial_event true]
  = inl (KeyError "enabled").
Proof.
  apply (state_without_enabled_raises [Sample.trial_event false]
           [Sample.trial_event true] (JObj [("type", JStr "trialWatchState")])).
  - repeat constructor. eexists; reflexivity.
  - reflexivity.
Defined.

Lemma traverse_values (states vals : list json) :
  Forall2 (fun e v => Py.getitem e "enabled" = inr v) states vals ->
  traverse (fun x => Py.getitem x "enabled") states = inr vals.
Proof.
  induction 1 as [| e v states vals He _ IH]; cbn [traverse].
  - reflexivity.
  - now rewrite He, IH.
Qed.

(** X4.  The aggregation goes by the truth value of the [enabled]
    fields, not by their being booleans: a non-zero number, a non-empty
    string, list or object counts as enabled, and [null], [0], the empty
    string, list and object as disabled. *)
Theorem availability_by_truth_value (states vals : list json) :
  Forall2 (fun e v => Py.getitem e "enabled" = inr v) states vals ->
  availability_of states
  = inr (verdict (if forallb Py.truthy vals then "all"
                  else if existsb Py.truthy vals then "partial" else "no")).
Proof.
  intros H. unfold availability_of, Py.all, Py.any.
  rewrite (traverse_values _ _ H).
  destruct (forallb Py.truthy vals); [reflexivity |].
  now destruct (existsb Py.truthy vals).
Qed.

Lemma availability_by_truth_value_witness :
  availability_of [JObj [("enabled", JNum 1)]; JObj [("enabled", JStr "no")]]
  = inr (verdict "all")
  /\ availability_of [JObj [("enabled", JNull)]; JObj [("enabled", JNum 0)]]
     = inr (verdict "no")
  /\ availability_of [JObj [("enabled", JStr "")]; JObj [("enabled", JArr [JNull])]]
     = inr (verdict "partial").
Proof.
  split; [| split].
  - apply (availability_by_truth_value _ [JNum 1; JStr "no"]).
    repeat constructor.
  - apply (availability_by_truth_value _ [JNull; JNum 0]).
    repeat constructor.
  - apply (availability_by_truth_value _ [JStr ""; JArr [JNull]]).
    repeat constructor.
Defined.

(** ** The availability check *)

(** X5.  The check reads nothing from standard input.  When the metadata
    has no broadcast id it raises the lookup's exception at once, without
    a call, even if [canWatch] is false; otherwise all it ever does to the
    outside is at most one fetch, of the schedule of that id, followed at
    most by the one warning. *)
Theorem availability_check_footprint (w : World) (d : json)
  (i : list string) :
  rest (availability_check w d i) = i
  /\ match getitem2 d "program" "nicoliveProgramId" with
     | inl e => availability_check w d i = (inl e, i, [])
     | inr lv =>
         events (availability_check w d i) = []
         \/ events (availability_check w d i) = [EGet (events_url w lv)]
         \/ events (availability_check w d i)
            = [EGet (events_url w lv); EPrint (trial_watch_warning w lv)]
     end.
Proof.
  split; [apply rest_availability_check |].
  destruct (getitem2 d "program" "nicoliveProgramId") as [e | lv] eqn:G.
  - unfold getitem2 in G. unfold availability_check, bind, lift.
    destruct (Py.getitem d "program") as [e' | program].
    + injection G as ->. reflexivity.
    + now rewrite G.
  - apply getitem2_inv in G as (program & Hp & Hid).
    unfold availability_check, get_tiralWatch_info.
    mstep. rewrite Hp. mstep. rewrite Hid.
    mcrunch; auto.
Qed.

(** X6.  The two tests are Python equalities: [canWatch] blocks when it
    equals [False], so also when it is the number 0, and lets through
    anything else, [null] included; the schedule is consulted when
    [isTrialWatchTarget] equals [True], so also when it is the number 1.
    With neither, the check returns silently and makes no call. *)
Theorem availability_check_by_equality (w : World) (d lv cw : json)
  (i : list string) :
  getitem2 d "program" "nicoliveProgramId" = inr lv ->
  getitem2 d "userProgramWatch" "canWatch" = inr cw ->
  (Py.eq_bool cw false = true ->
   forall reason,
     getitem2 d "userProgramWatch" "rejectedReasons" = inr reason ->
     availability_check w d i
     = (inl (LiveUnavailableException (unavailable_msg w lv reason)), i, []))
  /\ (Py.eq_bool cw false = false ->
      forall tg,
        getitem2 d "user" "isTrialWatchTarget" = inr tg ->
        Py.eq_bool tg true = false ->
        availability_check w d i = (inr tt, i, [])).
Proof.
  intros Hlv Hcw.
  apply getitem2_inv in Hlv as (program & Hp & Hid).
  apply getitem2_inv in Hcw as (upw & Hu & Hc).
  split.
  - intros B reason Hr.
    apply getitem2_inv in Hr as (upw' & Hu' & Hrr).
    rewrite Hu in Hu'. injection Hu' as <-.
    unfold availability_check, bind, lift, raise.
    now rewrite Hp, Hid, Hu, Hc, B, Hrr.
  - intros B tg Ht Bt.
    apply getitem2_inv in Ht as (user & Hus & Htg).
    unfold availability_check, bind, lift, ret.
    now rewrite Hp, Hid, Hu, Hc, B, Hus, Htg, Bt.
Qed.

Lemma availability_check_by_equality_witness :
  availability_check Sample.member
    (JObj [ ("program", JObj [("nicoliveProgramId", JStr "lv1")]);
            ("userProgramWatch",
              JObj [("canWatch", JNum 0); ("rejectedReasons", JStr "closed")]);
            ("user", JObj [("isTrialWatchTarget", JBool false)]) ]) []
  = (inl (LiveUnavailableException
            "Live lv1 is unavailable. Reason: closed"), [], [])
  /\ availability_check (Sample.trial [false])
       (JObj [ ("program", JObj [("nicoliveProgramId", JStr "lv1")]);
               ("userProgramWatch", JObj [("canWatch", JNull)]);
               ("user", JObj [("isTrialWatchTarget", JStr "true")]) ]) []
     = (inr tt, [], []).
Proof.
  split.
  - destruct (availability_check_by_equality Sample.member
                (JObj [ ("program", JObj [("nicoliveProgramId", JStr "lv1")]);
                        ("userProgramWatch",
                          JObj [("canWatch", JNum 0);
                                ("rejectedReasons", JStr "closed")]);
                        ("user", JObj [("isTrialWatchTarget", JBool false)]) ])
                (JStr "lv1") (JNum 0) [] eq_refl eq_refl) as (H & _).
    apply (H eq_refl (JStr "closed") eq_refl).
  - destruct (availability_check_by_equality (Sample.trial [false])
                (JObj [ ("program", JObj [("nicoliveProgramId", JStr "lv1")]);
                        ("userProgramWatch", JObj [("canWatch", JNull)]);
                        ("user", JObj [("isTrialWatchTarget", JStr "true")]) ])
                (JStr "lv1") JNull [] eq_refl eq_refl) as (_ & H).
    apply (H eq_refl (JStr "true") eq_refl eq_refl).
Defined.

(** X7.  A failing schedule fetch, or a schedule document that does not
    parse or has no [data], ends the check of a trial-watch target with
    that very exception, after the one fetch and without a warning. *)
Theorem schedule_failure_propagates (w : World) (d lv : json)
  (i : list string) (e : exn) :
  trial_target d lv ->
  (http_get w (events_url w lv) = inl e
   \/ exists content,
        http_get w (events_url w lv) = inr content
        /\ (json_loads w content = inl e
            \/ exists evs, json_loads w content = inr evs
                           /\ Py.getitem evs "data" = inl e)) ->
  availability_check w d i = (inl e, i, [EGet (events_url w lv)]).
Proof.
  intros (Hlv & (cw & Hcw & Hcw') & (tg & Htg & Htg')) H.
  apply getitem2_inv in Hlv as (program & Hp & Hid).
  apply getitem2_inv in Hcw as (upw & Hu & Hc).
  apply getitem2_inv in Htg as (user & Hus & Ht).
  unfold availability_check, get_tiralWatch_info, bind, lift, call.
  rewrite Hp, Hid, Hu, Hc, Hcw', Hus, Ht, Htg'.
  destruct H as [-> | (content & -> & [-> | (evs & -> & ->)])]; reflexivity.
Qed.

Lemma schedule_failure_propagates_witness :
  availability_check Variant.schedule_without_data
    (Sample.metadata true true) ["y"]
  = (inl (KeyError "data"), ["y"], [EGet Sample.schedule_url]).
Proof.
  apply (schedule_failure_propagates Variant.schedule_without_data
           (Sample.metadata true true) (JStr "lv123456789") ["y"]).
  - split; [reflexivity | split; exists (JBool true); split; reflexivity].
  - right. exists "{events}". split; [reflexivity |].
    right. exists (JObj []). split; reflexivity.
Defined.

(** ** Info resolution and the id *)

Lemma startswith_slice (p s : string) :
  Str.startswith s p = true -> p ++ Str.slice_from (String.length p) s = s.
Proof.
  revert s. induction p as [| c p IH]; intros s; cbn.
  - reflexivity.
  - destruct s as [| d s]; [discriminate |].
    intros H. apply andb_true_iff in H as [Hc Hs].
    apply Ascii.eqb_eq in Hc as ->. now rewrite (IH s Hs).
Qed.

(** X8.  For an id given as a watch URL, stripping the prefix and putting
    it back is the identity, so the page the run fetches first is the very
    URL it was given. *)
Theorem watch_url_fetched_as_given (w : World) (s output : string)
  (sc : bool) (i : list string) :
  Str.startswith s LIVE_URL_PREFIX = true ->
  LIVE_URL_PREFIX ++ strip_prefix s = s
  /\ exists t, events (_download w s output sc i) = EGet s :: t.
Proof.
  intros H.
  assert (E : LIVE_URL_PREFIX ++ strip_prefix s = s).
  { unfold strip_prefix. rewrite H. now apply startswith_slice. }
  split; [exact E |].
  destruct (download_first_call w s output sc i) as (t & Ht).
  rewrite E in Ht. eauto.
Qed.

Lemma watch_url_fetched_as_given_witness :
  LIVE_URL_PREFIX ++ strip_prefix "https://live.nicovideo.jp/watch/lv1?ref=x"
  = "https://live.nicovideo.jp/watch/lv1?ref=x"
  /\ exists t,
       events (_download Sample.member
                 "https://live.nicovideo.jp/watch/lv1?ref=x"
                 default_output true [])
       = EGet "https://live.nicovideo.jp/watch/lv1?ref=x" :: t.
Proof.
  apply (watch_url_fetched_as_given Sample.member
           "https://live.nicovideo.jp/watch/lv1?ref=x" default_output true []).
  reflexivity.
Defined.

(** X9.  The prefix is stripped once only: an id that carries it twice
    keeps one copy, and the fetch then goes to the doubled URL. *)
Theorem prefix_stripped_once (w : World) (s output : string) (sc : bool)
  (i : list string) :
  strip_prefix (LIVE_URL_PREFIX ++ LIVE_URL_PREFIX ++ s) = LIVE_URL_PREFIX ++ s
  /\ exists t,
       events (_download w (LIVE_URL_PREFIX ++ LIVE_URL_PREFIX ++ s)
                 output sc i)
       = EGet (LIVE_URL_PREFIX ++ LIVE_URL_PREFIX ++ s) :: t.
Proof.
  split; [apply strip_prefix_url |].
  destruct (download_first_call w (LIVE_URL_PREFIX ++ LIVE_URL_PREFIX ++ s)
              output sc i) as (t & Ht).
  rewrite strip_prefix_url in Ht. eauto.
Qed.

Lemma rest_get_info (w : World) (lv : string) (i : list string) :
  rest (get_info w lv i) = i.
Proof.
  unfold get_info. mcase; [reflexivity |].
  destruct (select_one w _); [| reflexivity].
  repeat (mcase; [reflexivity |]).
  mstep. rewrite rest_availability_check.
  destruct (result (availability_check w _ i)); [reflexivity |].
  mcrunch; reflexivity.
Qed.

Lemma get_info_calls (w : World) (lv : string) (i : list string) :
  events (get_info w lv i) = [EGet (LIVE_URL_PREFIX ++ lv)]
  \/ exists d,
       block_decodes w lv d
       /\ events (get_info w lv i)
          = EGet (LIVE_URL_PREFIX ++ lv)
              :: events (availability_check w d i).
Proof.
  unfold get_info. mstep.
  destruct (http_get w _) as [e | content] eqn:Hget; [now left |].
  destruct (select_one w content) as [tag |] eqn:Hsel; [| now left].
  mstep.
  destruct (item0 _) as [e | embedded_data] eqn:Hitem; [now left |].
  mstep.
  destruct (loads_unquote w _) as [e | d] eqn:Hdec; [now left |].
  right. exists d. split.
  { exists content, tag. split; [exact Hget | split; [exact Hsel |]].
    unfold payload_of. now rewrite Hitem. }
  mstep. cbn [app]. f_equal.
  rewrite rest_availability_check.
  destruct (result (availability_check w d i)); [now rewrite app_nil_r |].
  rewrite <- (app_nil_r (events (availability_check w d i))) at 2.
  f_equal. mcrunch; reflexivity.
Qed.

(** X10.  Info resolution reads nothing from standard input and makes
    the page fetch first; whatever else it does to the outside is what the
    availability check does on the decoded metadata. *)
Theorem get_info_footprint (w : World) (lv : string) (i : list string) :
  rest (get_info w lv i) = i
  /\ (events (get_info w lv i) = [EGet (LIVE_URL_PREFIX ++ lv)]
      \/ exists d,
           block_decodes w lv d
           /\ events (get_info w lv i)
              = EGet (LIVE_URL_PREFIX ++ lv)
                  :: events (availability_check w d i)).
Proof.
  split; [apply rest_get_info | apply get_info_calls].
Qed.

(** X11.  A failure of info resolution is the outcome of the whole run,
    exception and calls alike: nothing else has been attempted and nothing
    has been read from standard input. *)
Theorem info_failure_ends_run (w : World) (lv output : string) (sc : bool)
  (i : list string) (e : exn) :
  result (get_info w (strip_prefix lv) i) = inl e ->
  _download w lv output sc i
  = (inl e, i, events (get_info w (strip_prefix lv) i)).
Proof.
  intros H. pose proof (rest_get_info w (strip_prefix lv) i) as R.
  unfold _download, bind.
  destruct (get_info w (strip_prefix lv) i) as [[r i1] t1].
  cbn [result rest events fst snd] in *. now subst.
Qed.

Lemma info_failure_ends_run_witness :
  _download (Sample.trial [false; false]) Sample.page_url default_output
    true ["y"]
  = (inl (LiveUnavailableException
            "Live lv123456789 is unavailable. Reason: payment needed"),
     ["y"], [EGet Sample.page_url; EGet Sample.schedule_url]).
Proof.
  apply (info_failure_ends_run (Sample.trial [false; false]) Sample.page_url
           default_output true ["y"]).
  reflexivity.
Defined.

(** ** The overwrite prompt *)

Lemma ask_overwrite_skips (path : string) (junk i : list string) :
  forallb undecided junk = true ->
  ask_overwrite path (junk ++ i)
  = match ask_overwrite path i with
    | (r, i', t) => (r, i', (prompts path junk ++ t)%list)
    end.
Proof.
  induction junk as [| a junk IH]; intros U; cbn [app prompts map].
  - now destruct (ask_overwrite path i) as [[r i'] t].
  - cbn [forallb] in U. apply andb_true_iff in U as [Ua U].
    unfold undecided in Ua. apply andb_true_iff in Ua as [Uy Un].
    apply negb_true_iff in Uy, Un.
    cbn [ask_overwrite]. rewrite Uy, Un, (IH U).
    now destruct (ask_overwrite path i) as [[r i'] t].
Qed.

Lemma ask_overwrite_decides (path : string) (junk : list string)
  (ans : string) (later : list string) :
  forallb undecided junk = true ->
  (Str.lower ans = "y" ->
   ask_overwrite path (junk ++ ans :: later)
   = (inr true, later, prompts path (junk ++ [ans])))
  /\ (Str.lower ans = "n" ->
      ask_overwrite path (junk ++ ans :: later)
      = (inr false, later, prompts path (junk ++ [ans])))
  /\ ask_overwrite path junk
     = (inl EOFError, [],
        (prompts path junk ++ [EInput (overwrite_prompt path) None])%list).
Proof.
  intros U. split; [| split].
  - intros Y. rewrite (ask_overwrite_skips _ _ _ U). cbn [ask_overwrite].
    rewrite Y. cbn. unfold prompts. now rewrite map_app.
  - intros N. rewrite (ask_overwrite_skips _ _ _ U). cbn [ask_overwrite].
    rewrite N. cbn. unfold prompts. now rewrite map_app.
  - rewrite <- (app_nil_r junk) at 1.
    now rewrite (ask_overwrite_skips _ _ _ U).
Qed.

(** X12.  The prompt loop asks again for every line that is neither a yes
    nor a no, in any letter case; it stops at the first line that is one,
    leaves the lines after it unread, and has asked once per line read.
    When the input runs out first it has asked once more and raises
    [EOFError]. *)
Theorem ask_overwrite_answers (path : string) (junk : list string)
  (ans : string) (later : list string) :
  forallb undecided junk = true ->
  (Str.lower ans = "y" ->
   ask_overwrite path (junk ++ ans :: later)
   = (inr true, later, prompts path (junk ++ [ans])))
  /\ (Str.lower ans = "n" ->
      ask_overwrite path (junk ++ ans :: later)
      = (inr false, later, prompts path (junk ++ [ans])))
  /\ ask_overwrite path junk
     = (inl EOFError, [],
        (prompts path junk ++ [EInput (overwrite_prompt path) None])%list).
Proof. apply ask_overwrite_decides. Qed.

Lemma ask_overwrite_answers_witness :
  ask_overwrite "a.ts" ["maybe"; ""; "Y"; "n"]
  = (inr true, ["n"], prompts "a.ts" ["maybe"; ""; "Y"])
  /\ ask_overwrite "a.ts" ["yes"; "N"; "y"]
     = (inr false, ["y"], prompts "a.ts" ["yes"; "N"])
  /\ ask_overwrite "a.ts" ["yes"; "no"]
     = (inl EOFError, [],
        (prompts "a.ts" ["yes"; "no"]
           ++ [EInput (overwrite_prompt "a.ts") None])%list).
Proof.
  split; [| split].
  - destruct (ask_overwrite_answers "a.ts" ["maybe"; ""] "Y" ["n"] eq_refl)
      as (H & _).
    apply H. reflexivity.
  - destruct (ask_overwrite_answers "a.ts" ["yes"] "N" ["y"] eq_refl)
      as (_ & H & _).
    apply H. reflexivity.
  - destruct (ask_overwrite_answers "a.ts" ["yes"; "no"] "" [] eq_refl)
      as (_ & _ & H).
    exact H.
Defined.

(** ** Runs that stop before the session *)

Lemma download_at_prompt (w : World) (lv output : string) (sc : bool)
  (i : list string) (info : NicoLiveInfo) (ttl out : string) :
  result (get_info w (strip_prefix lv) i) = inr info ->
  sanitize w (title info) = inr ttl ->
  str_format w output ttl (lvid info) = inr out ->
  path_exists w out = true ->
  _download w lv output sc i
  = match ask_overwrite out i with
    | (inl e, i', t) =>
        (inl e, i', (events (get_info w (strip_prefix lv) i) ++ t)%list)
    | (inr true, i', t) =>
        match capture w (web_socket_url info) out sc i' with
        | (r, i'', t') =>
            (r, i'',
             (events (get_info w (strip_prefix lv) i) ++ t ++ t')%list)
        end
    | (inr false, i', t) =>
        (inr tt, i', (events (get_info w (strip_prefix lv) i) ++ t)%list)
    end.
Proof.
  intros G S F P. pose proof (rest_get_info w (strip_prefix lv) i) as R.
  unfold _download, bind, lift, ret.
  destruct (get_info w (strip_prefix lv) i) as [[r i1] t1].
  cbn [result rest events fst snd] in *. subst.
  rewrite S, F, P. cbn [app].
  destruct (ask_overwrite out i) as [[[e | [|]] i'] t]; cbn [app].
  - reflexivity.
  - now destruct (capture w (web_socket_url info) out sc i') as [[r i''] t'].
  - now rewrite ?app_nil_r.
Qed.

(** X13.  When the destination exists and the operator's first decisive
    answer is a no, the run returns normally right after the prompts: no
    session is opened, nothing is launched, and the lines after the answer
    are left unread.  When the input ends before any decisive answer the
    run raises [EOFError], again before any session. *)
Theorem declined_run_stops (w : World) (lv output : string) (sc : bool)
  (junk later : list string) (ans : string) (info : NicoLiveInfo)
  (ttl out : string) :
  forallb undecided junk = true ->
  (forall i, result (get_info w (strip_prefix lv) i) = inr info) ->
  sanitize w (title info) = inr ttl ->
  str_format w output ttl (lvid info) = inr out ->
  path_exists w out = true ->
  (Str.lower ans = "n" ->
   _download w lv output sc (junk ++ ans :: later)%list
   = (inr tt, later,
      (events (get_info w (strip_prefix lv) (junk ++ ans :: later)%list)
         ++ prompts out (junk ++ [ans]))%list))
  /\ _download w lv output sc junk
     = (inl EOFError, [],
        (events (get_info w (strip_prefix lv) junk)
           ++ prompts out junk ++ [EInput (overwrite_prompt out) None])%list).
Proof.
  intros U G S F P.
  destruct (ask_overwrite_decides out junk ans later U) as (_ & HN & HE).
  split.
  - intros N.
    rewrite (download_at_prompt _ _ _ _ _ _ _ _ (G _) S F P), (HN N).
    reflexivity.
  - rewrite (download_at_prompt _ _ _ _ _ _ _ _ (G _) S F P), HE.
    reflexivity.
Qed.

Lemma declined_run_stops_witness :
  _download Sample.video_present "lv123456789" default_output true
    ["hm"; "N"; "y"]
  = (inr tt, ["y"],
     [EGet Sample.page_url;
      EInput "Can you overwrite Title-lv123456789.ts? [y/n]" (Some "hm");
      EInput "Can you overwrite Title-lv123456789.ts? [y/n]" (Some "N")])
  /\ _download Sample.video_present "lv123456789" default_output true ["hm"]
     = (inl EOFError, [],
        [EGet Sample.page_url;
         EInput "Can you overwrite Title-lv123456789.ts? [y/n]" (Some "hm");
         EInput "Can you overwrite Title-lv123456789.ts? [y/n]" None]).
Proof.
  destruct (declined_run_stops Sample.video_present "lv123456789"
              default_output true ["hm"] ["y"] "N"
              (mkNicoLiveInfo "lv123456789" (JStr "Title")
                 (JStr "wss://a.live2/ws"))
              "Title" "Title-lv123456789.ts" eq_refl (fun _ => eq_refl)
              eq_refl eq_refl eq_refl) as (H1 & H2).
  split; [exact (H1 eq_refl) | exact H2].
Defined.

Lemma no_input_availability_check (w : World) (d : json) (i : list string) :
  existsb is_input (events (availability_check w d i)) = false.
Proof.
  unfold availability_check, get_tiralWatch_info.
  mcrunch; reflexivity.
Qed.

Lemma no_input_get_info (w : World) (lv : string) (i : list string) :
  existsb is_input (events (get_info w lv i)) = false.
Proof.
  destruct (get_info_calls w lv i) as [-> | (d & _ & ->)].
  - reflexivity.
  - cbn [existsb is_input orb]. apply no_input_availability_check.
Qed.

Lemma capture_quiet (w : World) (url : json) (out : string) (sc : bool)
  (i : list string) :
  rest (capture w url out sc i) = i
  /\ existsb is_input (events (capture w url out sc i)) = false.
Proof. split; capture_cases w sc; reflexivity. Qed.

(** X14.  When no file is in the way the run never prompts and leaves
    standard input as it found it. *)
Theorem fresh_destination_no_prompt (w : World) (lv output : string)
  (sc : bool) (i : list string) :
  (forall path, path_exists w path = false) ->
  rest (_download w lv output sc i) = i
  /\ existsb is_input (events (_download w lv output sc i)) = false.
Proof.
  intros P.
  pose proof (rest_get_info w (strip_prefix lv) i) as R.
  pose proof (no_input_get_info w (strip_prefix lv) i) as N.
  unfold _download. mstep.
  destruct (get_info w (strip_prefix lv) i) as [[[e | info] i1] t1];
    cbn [result rest events fst snd] in *; subst i1.
  - now rewrite app_nil_r.
  - destruct (sanitize w (title info)) as [e | ttl]; mstep; cbn [app].
    { now rewrite app_nil_r. }
    destruct (str_format w output ttl (lvid info)) as [e | out];
      mstep; cbn [app].
    { now rewrite app_nil_r. }
    rewrite P. mstep. cbn [app].
    destruct (capture_quiet w (web_socket_url info) out sc i) as (Rc & Nc).
    split; [exact Rc |].
    now rewrite existsb_app, N, Nc.
Qed.

Lemma fresh_destination_no_prompt_witness :
  rest (_download Sample.member "lv123456789" default_output true
          ["y"; "n"]) = ["y"; "n"]
  /\ existsb is_input
       (events (_download Sample.member "lv123456789" default_output true
                  ["y"; "n"])) = false.
Proof.
  apply (fresh_destination_no_prompt Sample.member "lv123456789"
           default_output true ["y"; "n"]).
  reflexivity.
Defined.

(** ** Runs that open the session *)

Lemma front_lacks (target : event -> bool) (front : list event) :
  (forall e, target e = true -> is_front e = false) ->
  forallb is_front front = true ->
  existsb target front = false.
Proof.
  intros T F. induction front as [| x front IH]; [reflexivity |].
  cbn [forallb existsb] in *. apply andb_true_iff in F as [Fx F].
  rewrite (IH F), orb_false_r.
  destruct (target x) eqn:E; [| reflexivity].
  rewrite (T x E) in Fx. discriminate.
Qed.

(** A run whose events include one that is not of the front part, with
    what info resolution returned. *)
Lemma download_reached_capture_info (w : World) (lv output : string)
  (sc : bool) (i : list string) (e : event) :
  In e (events (_download w lv output sc i)) -> is_front e = false ->
  exists front info out i',
    forallb is_front front = true
    /\ result (get_info w (strip_prefix lv) i) = inr info
    /\ events (_download w lv output sc i)
       = (front ++ events (capture w (web_socket_url info) out sc i'))%list
    /\ result (_download w lv output sc i)
       = result (capture w (web_socket_url info) out sc i')
    /\ In e (events (capture w (web_socket_url info) out sc i')).
Proof.
  intros I N.
  destruct (download_inv w lv output sc i)
    as (front & F & [E | (info & out & i' & G & _ & _ & E & R)]).
  - rewrite E in I. rewrite (front_in _ _ F I) in N. discriminate.
  - exists front, info, out, i'. repeat split; try assumption.
    rewrite E in I. apply in_app_or in I as [I | I]; [| exact I].
    rewrite (front_in _ _ F I) in N. discriminate.
Qed.

Lemma capture_session_url (w : World) (url : json) (out : string)
  (sc : bool) (i : list string) (u : json) :
  In (ENicoLiveWS u) (events (capture w url out sc i)) -> u = url.
Proof.
  capture_cases w sc; intros H; in_cases H; now injection H.
Qed.

(** X15.  A session is opened only on the websocket address of metadata
    that decoded from the page and passed the availability check: no
    socket for a broadcast the check has refused. *)
Theorem session_only_after_check (w : World) (lv output : string)
  (sc : bool) (i : list string) (url : json) :
  In (ENicoLiveWS url) (events (_download w lv output sc i)) ->
  exists d,
    block_decodes w (strip_prefix lv) d
    /\ result (availability_check w d i) = inr tt
    /\ exists site,
         Py.getitem d "site" = inr site
         /\ getitem2 site "relive" "webSocketUrl" = inr url.
Proof.
  intros I.
  destruct (download_reached_capture_info w lv output sc i _ I eq_refl)
    as (front & info & out & i' & _ & G & _ & _ & Ic).
  apply capture_session_url in Ic as ->.
  destruct (get_info_returns _ _ _ _ G) as (d & D & C & _ & _ & S).
  exists d. repeat split; assumption.
Qed.

Lemma session_only_after_check_witness :
  exists d,
    block_decodes (Sample.trial [true; false]) "lv123456789" d
    /\ result (availability_check (Sample.trial [true; false]) d []) = inr tt
    /\ exists site,
         Py.getitem d "site" = inr site
         /\ getitem2 site "relive" "webSocketUrl" = inr (JStr "wss://a.live2/ws").
Proof.
  apply (session_only_after_check (Sample.trial [true; false])
           "lv123456789" default_output false [] (JStr "wss://a.live2/ws")).
  cbn. tauto.
Defined.

Lemma capture_room_failure (w : World) (url : json) (out : string)
  (sc : bool) (i : list string) (e : exn) :
  In EWaitForRoom (events (capture w url out sc i)) ->
  wait_for_room w = inl e ->
  capture w url out sc i
  = (inl e, i, [ENicoLiveWS url; EConnectTask; EWaitForRoom]).
Proof.
  intros I R. revert I. unfold capture, bind, log, call, ret.
  destruct sc; rewrite ?R; cbn [app]; [reflexivity |].
  destruct (wait_for_stream w); [| destruct (mkdir w _);
    [| destruct (create_subprocess_exec w _ _);
       [| destruct (communicate w)]]];
    cbn [app events snd]; intros I; in_cases I.
Qed.

(** X16.  When the wait for the room raises, the run ends there with
    that exception: the comment capture is not started, the stream
    address is not awaited, nothing is launched and the session is left
    open. *)
Theorem room_failure_ends_run (w : World) (lv output : string) (sc : bool)
  (i : list string) (e : exn) :
  In EWaitForRoom (events (_download w lv output sc i)) ->
  wait_for_room w = inl e ->
  result (_download w lv output sc i) = inl e
  /\ exists front url,
       forallb is_front front = true
       /\ events (_download w lv output sc i)
          = (front ++ [ENicoLiveWS url; EConnectTask; EWaitForRoom])%list.
Proof.
  intros I R.
  destruct (download_reached_capture_info w lv output sc i _ I eq_refl)
    as (front & info & out & i' & F & _ & E & Rs & Ic).
  rewrite (capture_room_failure _ _ _ _ _ _ Ic R) in E, Rs.
  split; [exact Rs |]. now exists front, (web_socket_url info).
Qed.

Lemma room_failure_ends_run_witness :
  result (_download
            (Variant.with_session Sample.member (inl (Other "ConnectionClosed"))
               (inr "https://example/stream/master.m3u8") (inr tt))
            "lv123456789" default_output true [])
  = inl (Other "ConnectionClosed")
  /\ exists front url,
       forallb is_front front = true
       /\ events (_download
                    (Variant.with_session Sample.member
                       (inl (Other "ConnectionClosed"))
                       (inr "https://example/stream/master.m3u8") (inr tt))
                    "lv123456789" default_output true [])
          = (front ++ [ENicoLiveWS url; EConnectTask; EWaitForRoom])%list.
Proof.
  apply (room_failure_ends_run
           (Variant.with_session Sample.member (inl (Other "ConnectionClosed"))
              (inr "https://example/stream/master.m3u8") (inr tt))
           "lv123456789" default_output true []).
  - cbn. tauto.
  - reflexivity.
Defined.

Lemma capture_stream_failure (w : World) (url : json) (out : string)
  (sc : bool) (i : list string) (e : exn) :
  In EWaitForStream (events (capture w url out sc i)) ->
  wait_for_stream w = inl e ->
  result (capture w url out sc i) = inl e
  /\ existsb is_sink_side (events (capture w url out sc i)) = false.
Proof.
  intros I R. revert I. unfold capture, bind, log, call, ret.
  rewrite R.
  destruct sc; [destruct (wait_for_room w) |];
    cbn [app events result fst snd existsb is_sink_side orb]; intros I;
    try (now split); in_cases I.
Qed.

(** X17.  When the wait for the stream address raises, the run ends with
    that exception and without having created a directory, launched the
    sink or closed the session. *)
Theorem stream_failure_ends_run (w : World) (lv output : string)
  (sc : bool) (i : list string) (e : exn) :
  In EWaitForStream (events (_download w lv output sc i)) ->
  wait_for_stream w = inl e ->
  result (_download w lv output sc i) = inl e
  /\ existsb is_sink_side (events (_download w lv output sc i)) = false.
Proof.
  intros I R.
  destruct (download_reached_capture_info w lv output sc i _ I eq_refl)
    as (front & info & out & i' & F & _ & E & Rs & Ic).
  destruct (capture_stream_failure _ _ _ _ _ _ Ic R) as (Rc & Nc).
  split; [now rewrite Rs |].
  rewrite E, existsb_app, Nc, orb_false_r.
  apply front_lacks; [| exact F].
  intros [] T; try discriminate T; reflexivity.
Qed.

Lemma stream_failure_ends_run_witness :
  result (_download
            (Variant.with_session Sample.member (inr (JStr "room"))
               (inl (Other "ConnectionClosed")) (inr tt))
            "lv123456789" default_output true [])
  = inl (Other "ConnectionClosed")
  /\ existsb is_sink_side
       (events (_download
                  (Variant.with_session Sample.member (inr (JStr "room"))
                     (inl (Other "ConnectionClosed")) (inr tt))
                  "lv123456789" default_output true [])) = false.
Proof.
  apply (stream_failure_ends_run
           (Variant.with_session Sample.member (inr (JStr "room"))
              (inl (Other "ConnectionClosed")) (inr tt))
           "lv123456789" default_output true []).
  - cbn. tauto.
  - reflexivity.
Defined.

Lemma capture_ends (w : World) (url : json) (out : string) (sc : bool)
  (i : list string) :
  (result (capture w url out sc i) = inr tt ->
   exists pre, events (capture w url out sc i)
               = (pre ++ [ECommunicate; EClose])%list)
  /\ (forall e, result (capture w url out sc i) = inl e ->
                In EClose (events (capture w url out sc i)) ->
                ws_close w = inl e).
Proof.
  capture_cases w sc; split;
    try (intros H; discriminate H);
    try (intros e' H I; in_cases I; congruence);
    try (intros e' H; discriminate H);
    intros _.
  all: first [ now eexists [_; _; _; _; _; _; _; _]
             | now eexists [_; _; _; _; _] ].
Qed.

(** X18.  A run that has opened a session and returns normally has waited
    for the sink and closed the session as its last two steps; a run that
    raises after closing the session raises the exception of the close
    itself. *)
Theorem session_closed_on_return (w : World) (lv output : string)
  (sc : bool) (i : list string) :
  (forall url,
      In (ENicoLiveWS url) (events (_download w lv output sc i)) ->
      result (_download w lv output sc i) = inr tt ->
      exists pre, events (_download w lv output sc i)
                  = (pre ++ [ECommunicate; EClose])%list)
  /\ (forall e,
        In EClose (events (_download w lv output sc i)) ->
        result (_download w lv output sc i) = inl e ->
        ws_close w = inl e).
Proof.
  split.
  - intros url I R.
    destruct (download_reached_capture_info w lv output sc i _ I eq_refl)
      as (front & info & out & i' & _ & _ & E & Rs & _).
    destruct (capture_ends w (web_socket_url info) out sc i') as (H & _).
    rewrite Rs in R. destruct (H R) as (pre & Ep).
    exists (front ++ pre)%list. now rewrite E, Ep, app_assoc.
  - intros e I R.
    destruct (download_reached_capture_info w lv output sc i _ I eq_refl)
      as (front & info & out & i' & _ & _ & E & Rs & Ic).
    destruct (capture_ends w (web_socket_url info) out sc i') as (_ & H).
    rewrite Rs in R. exact (H e R Ic).
Qed.

Lemma session_closed_on_return_witness :
  exists pre, events (_download (Sample.sink_exits 3) "lv123456789"
                        default_output true [])
              = (pre ++ [ECommunicate; EClose])%list.
Proof.
  destruct (session_closed_on_return (Sample.sink_exits 3) "lv123456789"
              default_output true []) as (H & _).
  apply (H (JStr "wss://a.live2/ws")).
  - cbn. tauto.
  - reflexivity.
Defined.

Lemma capture_without_comments (w : World) (url : json) (out : string)
  (i : list string) :
  existsb is_comment_side (events (capture w url out false i)) = false.
Proof.
  unfold capture. mstep. cbn [app].
  repeat first
    [ progress (mstep; cbn [app])
    | match goal with
      | |- context [match ?x with inl _ => _ | inr _ => _ end] =>
          destruct x eqn:?
      end ]; reflexivity.
Qed.

(** X19.  Without the request for comments a run never waits for the
    room and never starts a comment capture. *)
Theorem no_comment_capture_unless_asked (w : World) (lv output : string)
  (i : list string) :
  existsb is_comment_side (events (_download w lv output false i)) = false.
Proof.
  assert (T : forall e, is_comment_side e = true -> is_front e = false).
  { intros [] H; try discriminate H; reflexivity. }
  destruct (download_inv w lv output false i)
    as (front & F & [E | (info & out & i' & _ & _ & _ & E & _)]);
    rewrite E.
  - now apply front_lacks.
  - rewrite existsb_app, capture_without_comments, orb_false_r.
    now apply front_lacks.
Qed.

Lemma capture_mkdir (w : World) (url : json) (out : string) (sc : bool)
  (i : list string) :
  guarded is_mkdir is_sink_launch false (events (capture w url out sc i))
  = true
  /\ (forall p, In (EMkdir p) (events (capture w url out sc i)) ->
                p = path_parent w out)
  /\ (forall prog args,
        In (ESubprocessExec prog args) (events (capture w url out sc i)) ->
        mkdir w (path_parent w out) = inr tt).
Proof.
  capture_cases w sc; (split; [reflexivity | split]).
  all: try (intros p H; in_cases H; now injection H).
  all: intros prog args H; in_cases H.
  all: match goal with
       | E : mkdir _ _ = inr ?u |- _ => now destruct u
       end.
Qed.

(** X20.  The sink is launched only after the parent directory of its
    destination has been created, and only if that creation succeeded. *)
Theorem directory_made_before_launch (w : World) (lv output : string)
  (sc : bool) (i : list string) (pre post : list event) (prog : string)
  (args : list string) :
  events (_download w lv output sc i)
  = (pre ++ ESubprocessExec prog args :: post)%list ->
  In (EMkdir (path_parent w (last args ""))) pre
  /\ mkdir w (path_parent w (last args "")) = inr tt.
Proof.
  intros E.
  assert (I : In (ESubprocessExec prog args)
                 (events (_download w lv output sc i))).
  { rewrite E. apply in_elt. }
  destruct (download_reached_capture_info w lv output sc i _ I eq_refl)
    as (front & info & out & i' & F & _ & E' & _ & Ic).
  destruct (capture_mkdir w (web_socket_url info) out sc i')
    as (G & Hp & Hm).
  pose proof (Hm _ _ Ic) as M.
  apply capture_sink_launch in Ic as (_ & uri & _ & ->).
  cbn [ffmpeg_args last] in *. split; [| exact M].
  assert (Gd : guarded is_mkdir is_sink_launch false
                 (events (_download w lv output sc i)) = true).
  { rewrite E'. apply guarded_front; [| exact G].
    apply front_has_no; [| exact F].
    intros [] T; try discriminate T; reflexivity. }
  destruct (guarded_split _ _ _ _ _ _ _ Gd E eq_refl)
    as [S | (e' & Ie & Ne)]; [discriminate |].
  destruct e'; try discriminate Ne.
  assert (Ip : In (EMkdir path) (events (_download w lv output sc i))).
  { rewrite E. apply in_or_app. now left. }
  rewrite E' in Ip. apply in_app_or in Ip as [Ip | Ip].
  - pose proof (front_in _ _ F Ip) as K. discriminate K.
  - now rewrite <- (Hp _ Ip).
Qed.

Lemma directory_made_before_launch_witness :
  In (EMkdir ".")
     [EGet Sample.page_url; ENicoLiveWS (JStr "wss://a.live2/ws");
      EConnectTask; EWaitForStream; EMkdir "."]
  /\ mkdir Sample.member "." = inr tt.
Proof.
  apply (directory_made_before_launch Sample.member "lv123456789"
           default_output false [] _ [ECommunicate; EClose] "ffmpeg"
           ["-y"; "-i"; "https://example/stream/master.m3u8"; "-c"; "copy";
            "Title-lv123456789.ts"]).
  reflexivity.
Defined.

(** X21.  The comment log is the sibling of the video destination of the
    same run: same parent, same stem, extension [.jsonl]. *)
Theorem comment_log_beside_video (w : World) (lv output : string)
  (sc : bool) (i : list string) (room : json) (path prog : string)
  (args : list string) :
  In (ENicoLiveCommentWS room path) (events (_download w lv output sc i)) ->
  In (ESubprocessExec prog args) (events (_download w lv output sc i)) ->
  path = path_join w (path_parent w (last args ""))
                     (path_stem w (last args "") ++ ".jsonl").
Proof.
  intros Ic Is.
  destruct (download_reached_capture_info w lv output sc i _ Ic eq_refl)
    as (front & info & out & i' & F & _ & E & _ & Icc).
  apply capture_comment_start in Icc as (_ & _ & ->).
  rewrite E in Is. apply in_app_or in Is as [Is | Is].
  - pose proof (front_in _ _ F Is) as K. discriminate K.
  - apply capture_sink_launch in Is as (_ & uri & _ & ->).
    reflexivity.
Qed.

Lemma comment_log_beside_video_witness :
  "Title-lv123456789.jsonl"
  = path_join Sample.member
      (path_parent Sample.member "Title-lv123456789.ts")
      (path_stem Sample.member "Title-lv123456789.ts" ++ ".jsonl").
Proof.
  apply (comment_log_beside_video Sample.member "lv123456789" default_output
           true [] (JStr "room") "Title-lv123456789.jsonl" "ffmpeg"
           ["-y"; "-i"; "https://example/stream/master.m3u8"; "-c"; "copy";
            "Title-lv123456789.ts"]).
  - cbn. tauto.
  - cbn. tauto.
Defined.

(** ** [login] *)

(** X22.  A login succeeds exactly when the last request ended at the
    account page: the one request when no one-time password is asked for,
    and otherwise the second one, made to the address the first one ended
    at, with the line read from standard input; where the first request
    ended is then not tested. *)
Theorem login_succeeds_iff
  (post : string -> list (string * string) -> res string)
  (user pass : string) (otp_required : bool) (i : list string) :
  fst (fst (Login.login post user pass otp_required i)) = inr tt
  <-> (otp_required = false
       /\ post Login.login_url (Login.payload user pass)
          = inr Login.account_url)
      \/ (otp_required = true
          /\ exists otp later url,
               i = otp :: later
               /\ post Login.login_url (Login.payload user pass) = inr url
               /\ post url (Login.payload2 otp) = inr Login.account_url).
Proof.
  unfold Login.login, Login.check. split.
  - destruct (post Login.login_url _) as [e | url] eqn:P1; [discriminate |].
    destruct otp_required.
    + destruct i as [| otp later]; [discriminate |].
      destruct (post url _) as [e | url'] eqn:P2; [discriminate |].
      destruct (String.eqb url' Login.account_url) eqn:E; [| discriminate].
      apply String.eqb_eq in E as ->. intros _. right.
      split; [reflexivity |]. now exists otp, later, url.
    + destruct (String.eqb url Login.account_url) eqn:E; [| discriminate].
      apply String.eqb_eq in E as ->. intros _. now left.
  - intros [(-> & ->) | (-> & otp & later & url & -> & -> & ->)];
      now rewrite String.eqb_refl.
Qed.

Lemma login_succeeds_iff_witness :
  fst (fst (Login.login (Cli.session "me" "pw" "https://account.nicovideo.jp/mfa" "123456")
              "me" "pw" true ["123456"; "y"])) = inr tt
  /\ fst (fst (Login.login (Cli.session "me" "pw" "" "")
                 "me" "pw" false ["y"])) = inr tt.
Proof.
  split.
  - apply (login_succeeds_iff
             (Cli.session "me" "pw" "https://account.nicovideo.jp/mfa" "123456")
             "me" "pw" true ["123456"; "y"]).
    right. split; [reflexivity |].
    exists "123456", ["y"], "https://account.nicovideo.jp/mfa".
    split; [reflexivity | split; reflexivity].
  - apply (login_succeeds_iff (Cli.session "me" "pw" "" "")
             "me" "pw" false ["y"]).
    left. split; reflexivity.
Defined.

(** X23.  Every request of a login is either the credentials posted to
    the login address or the one-time password posted to the address the
    first request ended at, whatever that address is. *)
Theorem login_posts
  (post : string -> list (string * string) -> res string)
  (user pass : string) (otp_required : bool) (i : list string)
  (url : string) (data : list (string * string)) :
  In (Login.Post url data) (snd (Login.login post user pass otp_required i)) ->
  (url = Login.login_url /\ data = Login.payload user pass)
  \/ (otp_required = true
      /\ post Login.login_url (Login.payload user pass) = inr url
      /\ exists otp later, i = otp :: later /\ data = Login.payload2 otp).
Proof.
  unfold Login.login, Login.check.
  destruct (post Login.login_url _) as [e | url1] eqn:P1.
  - intros [H | []]. injection H as <- <-. now left.
  - destruct otp_required.
    + destruct i as [| otp later].
      * intros [H | [H | []]]; [| discriminate H].
        injection H as <- <-. now left.
      * assert (K : In (Login.Post url data)
                      [Login.Post Login.login_url (Login.payload user pass);
                       Login.Input "OTP: " (Some otp);
                       Login.Post url1 (Login.payload2 otp)] ->
                    (url = Login.login_url /\ data = Login.payload user pass)
                    \/ (true = true /\ (inr url1 : res string) = inr url
                        /\ exists o l, otp :: later = o :: l
                                       /\ data = Login.payload2 o)).
        { intros [H | [H | [H | []]]]; [| discriminate H |].
          - injection H as <- <-. now left.
          - injection H as <- <-. right. repeat split. now exists otp, later. }
        destruct (post url1 _) as [e | url']; [exact K |].
        destruct (String.eqb url' Login.account_url); exact K.
    + destruct (String.eqb url1 Login.account_url);
        intros [H | []]; injection H as <- <-; now left.
Qed.

Lemma login_posts_witness :
  ("https://account.nicovideo.jp/mfa" = Login.login_url
   /\ Login.payload2 "123456" = Login.payload "me" "pw")
  \/ (true = true
      /\ Cli.session "me" "pw" "https://account.nicovideo.jp/mfa" "123456"
           Login.login_url (Login.payload "me" "pw")
         = inr "https://account.nicovideo.jp/mfa"
      /\ exists otp later,
           ["123456"; "y"] = otp :: later
           /\ Login.payload2 "123456" = Login.payload2 otp).
Proof.
  apply (login_posts
           (Cli.session "me" "pw" "https://account.nicovideo.jp/mfa" "123456")
           "me" "pw" true ["123456"; "y"]
           "https://account.nicovideo.jp/mfa" (Login.payload2 "123456")).
  cbn. tauto.
Defined.

(** ** The command line *)










(** X25.  With the account, the password and the id all given on the
    command line and no one-time password, [main] prompts for nothing: it
    posts the credentials and, the login accepted, is the download of that
    id with the default file name template and the comments flag. *)
Theorem main_with_all_arguments (w : World)
  (post : string -> list (string * string) -> res string)
  (getpass : string -> res string) (args : Cli.Args) (i : list string)
  (user pass live : string) :
  Cli.given (Cli.username args) = Some user ->
  Cli.given (Cli.password args) = Some pass ->
  Cli.given (Cli.live_id args) = Some live ->
  Cli.otp_required args = false ->
  post Login.login_url (Login.payload user pass) = inr Login.account_url ->
  Cli.main w post getpass args i
  = match Cli.of_download
            (_download w live "{title}-{lvid}.ts" (Cli.save_comments args) i)
    with
    | (r, i', t) =>
        (r, i',
         Cli.OfLogin (Login.Post Login.login_url (Login.payload user pass))
           :: t)
    end.
Proof.
  intros U P L O A.
  unfold Cli.main, Cli.andthen, Cli.or_else, Login.login, Login.check,
    download, default_output.
  rewrite U, P, L, O, A, String.eqb_refl. cbn [Cli.of_login map app].
  now destruct (Cli.of_download _) as [[r i'] t].
Qed.

Lemma main_with_all_arguments_witness :
  Cli.main Sample.member (Cli.session "me" "pw" "" "") (Cli.typed "unused")
    (Cli.mkArgs (Some "me") (Some "pw") (Some "lv123456789") false false)
    ["left alone"]
  = (inr tt, ["left alone"],
     Cli.OfLogin (Login.Post Login.login_url (Login.payload "me" "pw"))
       :: map Cli.OfDownload
            (events (_download Sample.member "lv123456789" default_output
                       false []))).
Proof.
  apply (main_with_all_arguments Sample.member (Cli.session "me" "pw" "" "")
           (Cli.typed "unused")
           (Cli.mkArgs (Some "me") (Some "pw") (Some "lv123456789") false false)
           ["left alone"] "me" "pw" "lv123456789");
    reflexivity.
Defined.

(** X26.  With nothing given on the command line and a one-time password
    required, standard input is read in this order: the account, then
    (the password coming from the terminal) the id, and only then, inside
    the login, the one-time password; what is left goes to the download's
    overwrite prompt. *)
Theorem main_reads_in_order (w : World)
  (post : string -> list (string * string) -> res string)
  (getpass : string -> res string) (args : Cli.Args)
  (account live otp pass mfa : string) (later : list string) :
  Cli.given (Cli.username args) = None ->
  Cli.given (Cli.password args) = None ->
  Cli.given (Cli.live_id args) = None ->
  Cli.otp_required args = true ->
  getpass "Password: " = inr pass ->
  post Login.login_url (Login.payload account pass) = inr mfa ->
  post mfa (Login.payload2 otp) = inr Login.account_url ->
  Cli.main w post getpass args (account :: live :: otp :: later)
  = match Cli.of_download
            (_download w live "{title}-{lvid}.ts" (Cli.save_comments args)
               later)
    with
    | (r, i', t) =>
        (r, i',
         ([Cli.Input "Account: " (Some account);
           Cli.Getpass "Password: ";
           Cli.Input "Live Id: " (Some live);
           Cli.OfLogin (Login.Post Login.login_url
                          (Login.payload account pass));
           Cli.OfLogin (Login.Input "OTP: " (Some otp));
           Cli.OfLogin (Login.Post mfa (Login.payload2 otp))] ++ t)%list)
    end.
Proof.
  intros U P L O G A1 A2.
  unfold Cli.main, Cli.andthen, Cli.or_else, Cli.input, Cli.ask_password,
    Login.login, Login.check, download, default_output.
  rewrite U, P, L, O, G, A1, A2, String.eqb_refl.
  cbn [Cli.of_login map app].
  now destruct (Cli.of_download _) as [[r i'] t].
Qed.

Lemma main_reads_in_order_witness :
  fst (Cli.main Sample.video_present
         (Cli.session "me" "pw" "https://account.nicovideo.jp/mfa" "123456")
         (Cli.typed "pw") (Cli.mkArgs None (Some "") None true false)
         ["me"; "lv123456789"; "123456"; "n"; "unread"])
  = (inr tt, ["unread"]).
Proof.
  rewrite (main_reads_in_order Sample.video_present
             (Cli.session "me" "pw" "https://account.nicovideo.jp/mfa" "123456")
             (Cli.typed "pw") (Cli.mkArgs None (Some "") None true false)
             "me" "lv123456789" "123456" "pw"
             "https://account.nicovideo.jp/mfa" ["n"; "unread"]);
    reflexivity.
Defined.
